(** * The fluent trigger builder of openhab-js (src/rules/trigger-builder.js)

    A shallow embedding of the trigger-specification classes: the
    [TriggerBuilder], the [TriggerConf] base class and its five
    subclasses.  JavaScript objects live in a store addressed by
    references, so that the aliasing between the builder's current-trigger
    slot, the configuration returned to the caller and the entries of the
    rule builder's collection is the one of the program. *)

From Stdlib Require Import ZArith String Ascii.
From stdpp Require Import base option list strings gmap pretty.

Local Open Scope string_scope.
Local Open Scope list_scope.

(** ** JavaScript values *)

Definition loc := nat.

(** The values that flow through the builder.  Numbers are the
    integer-valued ones (start levels), in the range where ToString is the
    decimal numeral; objects are references into the store. *)
Inductive jsval :=
| VUndef
| VNull
| VBool (b : bool)
| VNum (n : Z)
| VStr (s : string)
| VRef (l : loc).

(** ToBoolean. *)
Definition truthy (v : jsval) : bool :=
  match v with
  | VUndef | VNull => false
  | VBool b => b
  | VNum n => negb (n =? 0)%Z
  | VStr s => negb (String.eqb s "")
  | VRef _ => true
  end.

(** ToString, as performed by [+] with a string operand and by template
    literals.  No object of this model overrides [toString]. *)
Definition to_string (v : jsval) : string :=
  match v with
  | VUndef => "undefined"
  | VNull => "null"
  | VBool true => "true"
  | VBool false => "false"
  | VNum n => pretty n
  | VStr s => s
  | VRef _ => "[object Object]"
  end.

(** [typeof v]; the model has no function objects. *)
Definition typeof (v : jsval) : string :=
  match v with
  | VUndef => "undefined"
  | VNull => "object"
  | VBool _ => "boolean"
  | VNum _ => "number"
  | VStr _ => "string"
  | VRef _ => "object"
  end.

(** [a || b] *)
Definition js_or (a b : jsval) : jsval := if truthy a then a else b.

(** [v === s] for a string literal [s]. *)
Definition strict_eq_str (v : jsval) (s : string) : bool :=
  match v with
  | VStr t => String.eqb t s
  | _ => false
  end.

(** [v != 'changed'].  Loose comparison with the string: [undefined] and
    [null] are different from every string; a boolean or a number is
    compared with ToNumber('changed'), which is NaN; an object is compared
    through its primitive, "[object Object]". *)
Definition loose_neq_changed (v : jsval) : bool :=
  match v with
  | VStr t => negb (String.eqb t "changed")
  | VUndef | VNull | VBool _ | VNum _ | VRef _ => true
  end.

(** The one-character string holding a double quote. *)
Definition dquote : string := String (ascii_of_nat 34) EmptyString.

(** Substring test, used to state what a description contains. *)
Fixpoint contains (needle hay : string) : bool :=
  String.prefix needle hay ||
  match hay with
  | EmptyString => false
  | String _ rest => contains needle rest
  end.

(** ** Exceptions *)

Inductive exn :=
| Thrown (v : jsval)             (* [throw v] *)
| TypeError (msg : string)
| ReferenceError (msg : string).

(** ** Engine triggers *)

(** Modelled from the spec: the engine trigger factory (module
    [../triggers], not part of the sources) is a family of free functions
    keyed by trigger family, each returning an opaque engine-native
    record.  A record is represented by the name of the factory and the
    arguments of the call, in call order. *)
Inductive EngineTrigger :=
| ChannelEventTrigger (channel event : jsval)
| GenericCronTrigger (expression : jsval)
| ItemStateChangeTrigger (name a b : jsval)
| ItemCommandTrigger (name a : jsval)
| ItemStateUpdateTrigger (name a : jsval)
| GroupStateChangeTrigger (name a b : jsval)
| GroupCommandTrigger (name a : jsval)
| GroupStateUpdateTrigger (name a : jsval)
| ThingStatusChangeTrigger (uid a b : jsval)
| ThingStatusUpdateTrigger (uid a : jsval)
| SystemStartlevelTrigger (level : jsval).

(** The group family of the factory. *)
Definition is_group_trigger (t : EngineTrigger) : bool :=
  match t with
  | GroupStateChangeTrigger _ _ _ | GroupCommandTrigger _ _
  | GroupStateUpdateTrigger _ _ => true
  | _ => false
  end.

(** ** Objects *)

(** A property that was never assigned reads as [undefined]; every field
    below holds [VUndef] until the code assigns it. *)

Record TriggerBuilderObj := mkTriggerBuilder {
  builder : jsval;
  currentTigger : jsval
}.

Record ChannelObj := mkChannel {
  channel_triggerBuilder : jsval;
  channelName : jsval;
  eventName : jsval
}.

Record CronObj := mkCron {
  cron_triggerBuilder : jsval;
  timeStr : jsval
}.

Record ItemObj := mkItem {
  item_triggerBuilder : jsval;
  type : string;
  item_name : jsval;
  item_op_type : jsval;
  item_to_value : jsval;
  item_from_value : jsval
}.

Record ThingObj := mkThing {
  thing_triggerBuilder : jsval;
  thingUID : jsval;
  thing_op_type : jsval;
  thing_to_value : jsval;
  thing_from_value : jsval
}.

Record SystemObj := mkSystem {
  system_triggerBuilder : jsval;
  level : jsval
}.

Inductive object :=
| ORuleBuilder (triggerConfs : list jsval)
| OTriggerBuilder (o : TriggerBuilderObj)
| OChannel (o : ChannelObj)
| OCron (o : CronObj)
| OItem (o : ItemObj)
| OThing (o : ThingObj)
| OSystem (o : SystemObj)
| OOperationBuilder (builder fn : jsval)
| OConditionBuilder (builder fn : jsval)
| OPlain (props : gmap string jsval).

(** ** The store and the monad of computations *)

(** A reference is an index in the store; allocation appends. *)
Abbreviation Heap := (list object).

Inductive Res (A : Type) :=
| Ok (a : A) (h : Heap)
| Throw (e : exn) (h : Heap).
Arguments Ok {A} a h.
Arguments Throw {A} e h.

Definition M (A : Type) : Type := Heap → Res A.

#[global] Instance M_ret : MRet M := λ A a h, Ok a h.
#[global] Instance M_bind : MBind M := λ A B f m h,
  match m h with
  | Ok a h' => f a h'
  | Throw e h' => Throw e h'
  end.

Definition throw {A} (e : exn) : M A := λ h, Throw e h.

Definition alloc (o : object) : M loc := λ h, Ok (length h) (h ++ [o]).

Definition write (l : loc) (o : object) : M unit := λ h, Ok () (<[l := o]> h).

Definition wrong_receiver {A} : M A :=
  throw (TypeError "receiver is not an instance of the class").

Definition read_TriggerBuilder (l : loc) : M TriggerBuilderObj := λ h,
  match h !! l with Some (OTriggerBuilder o) => Ok o h | _ => wrong_receiver h end.
Definition read_Channel (l : loc) : M ChannelObj := λ h,
  match h !! l with Some (OChannel o) => Ok o h | _ => wrong_receiver h end.
Definition read_Cron (l : loc) : M CronObj := λ h,
  match h !! l with Some (OCron o) => Ok o h | _ => wrong_receiver h end.
Definition read_Item (l : loc) : M ItemObj := λ h,
  match h !! l with Some (OItem o) => Ok o h | _ => wrong_receiver h end.
Definition read_Thing (l : loc) : M ThingObj := λ h,
  match h !! l with Some (OThing o) => Ok o h | _ => wrong_receiver h end.
Definition read_System (l : loc) : M SystemObj := λ h,
  match h !! l with Some (OSystem o) => Ok o h | _ => wrong_receiver h end.

(** [v.m(...)]: a method call on the value [v].  Reading a property of
    [undefined] or [null] is a TypeError; a primitive has none of the
    methods of this module. *)
Definition invoke {A} (v : jsval) (m : loc → M A) : M A :=
  match v with
  | VRef l => m l
  | VUndef | VNull =>
      throw (TypeError "Cannot read properties of undefined or null")
  | _ => throw (TypeError "is not a function")
  end.

(** [v.name], for the values the item constructor can receive. *)
Definition get_name (v : jsval) : M jsval := λ h,
  match v with
  | VUndef | VNull =>
      Throw (TypeError "Cannot read properties of undefined or null") h
  | VRef l =>
      match h !! l with
      | Some (OPlain props) => Ok (default VUndef (props !! "name")) h
      | _ => Ok VUndef h
      end
  | _ => Ok VUndef h
  end.

(** [throw error(msg)].  The module binds no [error]: evaluating the
    callee raises a ReferenceError before the message is built. *)
Definition throw_error {A} (msg : string) : M A :=
  throw (ReferenceError "error is not defined").

(** ** The rule builder and the next stages of the chain *)

(** The owning rule builder, the operation stage and the condition stage
    are collaborators of the module; their sources are not part of it. *)

Module RuleBuilder.
(** Modelled from the spec: the owning rule builder accumulates the
    triggers of a rule in an ordered collection, empty at first. *)
Definition new : M jsval :=
  l ← alloc (ORuleBuilder []); mret (VRef l).

(** Modelled from the spec: [addTrigger(triggerConf)] of the rule
    builder appends to the ordered collection, has no return value and
    does not reject incomplete configurations. *)
Definition addTrigger (this : loc) (triggerConf : jsval) : M jsval := λ h,
  match h !! this with
  | Some (ORuleBuilder confs) =>
      Ok VUndef (<[this := ORuleBuilder (confs ++ [triggerConf])]> h)
  | _ => wrong_receiver h
  end.
End RuleBuilder.

Module OperationBuilder.
(** Modelled from the spec: the operation-stage constructor (module
    [./operation-builder]) takes [(ruleBuilder, fn)] and returns a new
    chain-continuation object, opaque beyond that. *)
Definition new (builder fn : jsval) : M jsval :=
  l ← alloc (OOperationBuilder builder fn); mret (VRef l).
End OperationBuilder.

Module ConditionBuilder.
(** Modelled from the spec: the condition-stage constructor (module
    [./condition-builder]) takes [(ruleBuilder, fn)] and returns a new
    chain-continuation object, opaque beyond that. *)
Definition new (builder fn : jsval) : M jsval :=
  l ← alloc (OConditionBuilder builder fn); mret (VRef l).
End ConditionBuilder.

(** ** class ChannelTriggerConfig *)

Module ChannelTriggerConfig.
Definition new (channelName triggerBuilder : jsval) : M jsval :=
  l ← alloc (OChannel (mkChannel triggerBuilder channelName VUndef));
  mret (VRef l).

(** The arrow function the constructor stores in [this._toOHTriggers]. *)
Definition _toOHTriggers (this : loc) : M (list EngineTrigger) :=
  o ← read_Channel this;
  mret [ChannelEventTrigger (channelName o) (eventName o)].

Definition describe (this : loc) (compact : jsval) : M string :=
  o ← read_Channel this;
  if truthy compact then
    mret (to_string (channelName o) +:+
          (if truthy (eventName o) then ":" +:+ to_string (eventName o) else ""))
  else
    mret ("matches channel " +:+ dquote +:+ to_string (channelName o) +:+ dquote +:+
          (if truthy (eventName o)
           then "for event " +:+ to_string (eventName o) else "")).

Definition triggered (this : loc) (eventName : jsval) : M jsval :=
  o ← read_Channel this;
  _ ← write this (OChannel (mkChannel (channel_triggerBuilder o) (channelName o)
                                      (js_or eventName (VStr ""))));
  mret (VRef this).

Definition to (this : loc) (eventName : jsval) : M jsval :=
  triggered this eventName.

Definition _complete (this : loc) : M bool :=
  o ← read_Channel this;
  mret (negb (String.eqb (typeof (eventName o)) "undefined")).
End ChannelTriggerConfig.

(** ** class CronTriggerConfig *)

Module CronTriggerConfig.
Definition new (timeStr triggerBuilder : jsval) : M jsval :=
  l ← alloc (OCron (mkCron triggerBuilder timeStr));
  mret (VRef l).

(** The three arrow functions installed by the constructor. *)
Definition _complete (this : loc) : M bool :=
  _ ← read_Cron this; mret true.

Definition _toOHTriggers (this : loc) : M (list EngineTrigger) :=
  o ← read_Cron this; mret [GenericCronTrigger (timeStr o)].

Definition describe (this : loc) (compact : jsval) : M string :=
  o ← read_Cron this;
  mret (if truthy compact then "cron_" +:+ to_string (timeStr o)
        else "matches cron " +:+ dquote +:+ to_string (timeStr o) +:+ dquote).
End CronTriggerConfig.


(** ** class ItemTriggerConfig *)

(** The arguments object handed to a middleware: its own properties. *)
Abbreviation Args := (gmap string jsval).

(** A middleware [function (next, args)], for any result type of [next]. *)
Definition Hook : Type := ∀ R : Type, (Args → R) → Args → R.

Module ItemTriggerConfig.
(** [constructor(itemOrName, isGroup, triggerBuilder)].  The object is
    entered in the store once the constructor body has run. *)
Definition new (itemOrName isGroup triggerBuilder : jsval) : M jsval :=
  let type := if truthy isGroup then "memberOf" else "item" in
  itemOrName ← (if negb (String.eqb (typeof itemOrName) "string")
                then get_name itemOrName
                else mret itemOrName);
  l ← alloc (OItem (mkItem triggerBuilder type itemOrName VUndef VUndef VUndef));
  mret (VRef l).

Definition to (this : loc) (value : jsval) : M jsval :=
  o ← read_Item this;
  _ ← write this (OItem (mkItem (item_triggerBuilder o) (type o) (item_name o)
                                (item_op_type o) value (item_from_value o)));
  mret (VRef this).

(** [this.of = this.to] in the constructor: the same function. *)
Definition of_ := to.

Definition from (this : loc) (value : jsval) : M jsval :=
  o ← read_Item this;
  if loose_neq_changed (item_op_type o) then
    throw (Thrown (VStr ".from(..) only available for .changed()"))
  else
    _ ← write this (OItem (mkItem (item_triggerBuilder o) (type o) (item_name o)
                                  (item_op_type o) (item_to_value o) value));
    mret (VRef this).

Definition toOff (this : loc) : M jsval := to this (VStr "OFF").

Definition toOn (this : loc) : M jsval := to this (VStr "ON").

Definition set_op_type (this : loc) (kind : string) : M jsval :=
  o ← read_Item this;
  _ ← write this (OItem (mkItem (item_triggerBuilder o) (type o) (item_name o)
                                (VStr kind) (item_to_value o) (item_from_value o)));
  mret (VRef this).

Definition receivedCommand (this : loc) : M jsval := set_op_type this "receivedCommand".

Definition receivedUpdate (this : loc) : M jsval := set_op_type this "receivedUpdate".

Definition changed (this : loc) : M jsval := set_op_type this "changed".

Definition _complete (this : loc) : M bool :=
  o ← read_Item this;
  mret (negb (String.eqb (typeof (item_op_type o)) "undefined")).

(** The arrow function the constructor stores in [this.describe]
    (line 176); it takes no parameter. *)
Definition describe_closure (this : loc) : M string :=
  o ← read_Item this;
  mret (type o +:+ " " +:+ to_string (item_name o) +:+ " changed").

(** The method [describe(compact)] of the class body (lines 220-249). *)
Definition describe_method (this : loc) (compact : jsval) : M string :=
  o ← read_Item this;
  if strict_eq_str (item_op_type o) "changed" then
    if truthy compact then
      let transition := js_or (VStr (to_string (item_from_value o) +:+ "=>")) (VStr "") in
      let transition :=
        if truthy (item_to_value o)
        then VStr (to_string (js_or transition (VStr "=>")) +:+ to_string (item_to_value o))
        else transition in
      mret (to_string (item_name o) +:+ " " +:+ to_string transition +:+ "/Δ")
    else
      let transition := "changed" in
      let transition :=
        if truthy (item_from_value o)
        then transition +:+ " from " +:+ to_string (item_from_value o)
        else transition in
      let transition :=
        if truthy (item_to_value o)
        then transition +:+ " to " +:+ to_string (item_to_value o)
        else transition in
      mret (to_string (item_name o) +:+ " " +:+ transition)
  else if strict_eq_str (item_op_type o) "receivedCommand" then
    mret (if truthy compact then to_string (item_name o) +:+ "/⌘"
          else type o +:+ " " +:+ to_string (item_name o) +:+ " received command")
  else if strict_eq_str (item_op_type o) "receivedUpdate" then
    mret (if truthy compact then to_string (item_name o) +:+ "/↻"
          else type o +:+ " " +:+ to_string (item_name o) +:+ " received update")
  else
    throw_error ("Unknown operation type: " +:+ to_string (item_op_type o)).

(** [cfg.describe(compact)].  Property lookup finds the own property
    written by the constructor before the method of the prototype, so the
    call runs the arrow function and the argument is dropped. *)
Definition describe (this : loc) (compact : jsval) : M string :=
  describe_closure this.

Definition _toOHTriggers (this : loc) : M (list EngineTrigger) :=
  o ← read_Item this;
  if String.eqb (type o) "memberOf" then
    if strict_eq_str (item_op_type o) "changed" then
      mret [GroupStateChangeTrigger (item_name o) (item_from_value o) (item_to_value o)]
    else if strict_eq_str (item_op_type o) "receivedCommand" then
      mret [GroupCommandTrigger (item_name o) (item_to_value o)]
    else if strict_eq_str (item_op_type o) "receivedUpdate" then
      mret [GroupStateUpdateTrigger (item_name o) (item_to_value o)]
    else
      throw_error ("Unknown operation type: " +:+ to_string (item_op_type o))
  else
    if strict_eq_str (item_op_type o) "changed" then
      mret [ItemStateChangeTrigger (item_name o) (item_from_value o) (item_to_value o)]
    else if strict_eq_str (item_op_type o) "receivedCommand" then
      mret [ItemCommandTrigger (item_name o) (item_to_value o)]
    else if strict_eq_str (item_op_type o) "receivedUpdate" then
      mret [ItemStateUpdateTrigger (item_name o) (item_to_value o)]
    else
      throw_error ("Unknown operation type: " +:+ to_string (item_op_type o)).

(** [args.receivedCommand]; an absent property reads as [undefined]. *)
Definition getReceivedCommand (args : Args) : jsval :=
  default VUndef (args !! "receivedCommand").

(** [_executeHook()]; [None] is [null].  The object literal
    [{...args, it}] copies the own properties of [args] and then writes
    the property [it]. *)
Definition _executeHook (this : loc) : M (option Hook) :=
  o ← read_Item this;
  if strict_eq_str (item_op_type o) "receivedCommand" then
    mret (Some (λ R next args,
                  let it := getReceivedCommand args in
                  next (<["it" := it]> args)))
  else
    mret None.
End ItemTriggerConfig.

(** ** class ThingTriggerConfig *)

Module ThingTriggerConfig.
Definition new (thingUID triggerBuilder : jsval) : M jsval :=
  l ← alloc (OThing (mkThing triggerBuilder thingUID VUndef VUndef VUndef));
  mret (VRef l).

Definition _complete (this : loc) : M bool :=
  o ← read_Thing this;
  mret (negb (String.eqb (typeof (thing_op_type o)) "undefined")).

Definition describe (this : loc) (compact : jsval) : M string :=
  o ← read_Thing this;
  if strict_eq_str (thing_op_type o) "changed" then
    let transition := "changed" in
    let transition :=
      if truthy (thing_to_value o)
      then transition +:+ " to " +:+ to_string (thing_to_value o)
      else transition in
    let transition :=
      if truthy (thing_from_value o)
      then transition +:+ " from " +:+ to_string (thing_from_value o)
      else transition in
    mret (to_string (thingUID o) +:+ " " +:+ transition)
  else if strict_eq_str (thing_op_type o) "updated" then
    mret (if truthy compact then to_string (thingUID o) +:+ "/updated"
          else "Thing " +:+ to_string (thingUID o) +:+ " received update")
  else
    throw_error ("Unknown operation type: " +:+ to_string (thing_op_type o)).

Definition set_op_type (this : loc) (kind : string) : M jsval :=
  o ← read_Thing this;
  _ ← write this (OThing (mkThing (thing_triggerBuilder o) (thingUID o) (VStr kind)
                                  (thing_to_value o) (thing_from_value o)));
  mret (VRef this).

Definition changed (this : loc) : M jsval := set_op_type this "changed".

Definition updated (this : loc) : M jsval := set_op_type this "updated".

Definition from (this : loc) (value : jsval) : M jsval :=
  o ← read_Thing this;
  if loose_neq_changed (thing_op_type o) then
    throw (Thrown (VStr ".from(..) only available for .changed()"))
  else
    _ ← write this (OThing (mkThing (thing_triggerBuilder o) (thingUID o)
                                    (thing_op_type o) (thing_to_value o) value));
    mret (VRef this).

Definition to (this : loc) (value : jsval) : M jsval :=
  o ← read_Thing this;
  _ ← write this (OThing (mkThing (thing_triggerBuilder o) (thingUID o)
                                  (thing_op_type o) value (thing_from_value o)));
  mret (VRef this).

Definition _toOHTriggers (this : loc) : M (list EngineTrigger) :=
  o ← read_Thing this;
  if strict_eq_str (thing_op_type o) "changed" then
    mret [ThingStatusChangeTrigger (thingUID o) (thing_to_value o) (thing_from_value o)]
  else if strict_eq_str (thing_op_type o) "updated" then
    mret [ThingStatusUpdateTrigger (thingUID o) (thing_to_value o)]
  else
    throw_error ("Unknown operation type: " +:+ to_string (thing_op_type o)).
End ThingTriggerConfig.

(** ** class SystemTriggerConfig *)

Module SystemTriggerConfig.
Definition new (triggerBuilder : jsval) : M jsval :=
  l ← alloc (OSystem (mkSystem triggerBuilder VUndef));
  mret (VRef l).

(** The two arrow functions installed by the constructor. *)
Definition _toOHTriggers (this : loc) : M (list EngineTrigger) :=
  o ← read_System this; mret [SystemStartlevelTrigger (level o)].

Definition describe (this : loc) (compact : jsval) : M string :=
  o ← read_System this;
  mret (if truthy compact then "system:" +:+ to_string (level o)
        else "system level " +:+ dquote +:+ to_string (level o) +:+ dquote).

Definition _complete (this : loc) : M bool :=
  o ← read_System this;
  mret (negb (String.eqb (typeof (level o)) "undefined")).

Definition startLevel (this : loc) (level : jsval) : M jsval :=
  o ← read_System this;
  _ ← write this (OSystem (mkSystem (system_triggerBuilder o) level));
  mret (VRef this).

Definition rulesLoaded (this : loc) : M jsval := startLevel this (VNum 40).

Definition ruleEngineStarted (this : loc) : M jsval := startLevel this (VNum 50).

Definition userInterfacesStarted (this : loc) : M jsval := startLevel this (VNum 70).

Definition thingsInitialized (this : loc) : M jsval := startLevel this (VNum 80).

Definition startupComplete (this : loc) : M jsval := startLevel this (VNum 100).
End SystemTriggerConfig.


(** ** class TriggerBuilder *)

Module TriggerBuilder.
Definition new (builder : jsval) : M jsval :=
  l ← alloc (OTriggerBuilder (mkTriggerBuilder builder VUndef));
  mret (VRef l).

Definition _setTrigger (this : loc) (trigger : jsval) : M jsval :=
  o ← read_TriggerBuilder this;
  _ ← write this (OTriggerBuilder (mkTriggerBuilder (builder o) trigger));
  o ← read_TriggerBuilder this;
  mret (currentTigger o).

Definition _or (this : loc) : M jsval :=
  o ← read_TriggerBuilder this;
  _ ← invoke (builder o) (λ b, RuleBuilder.addTrigger b (currentTigger o));
  mret (VRef this).

Definition _then (this : loc) (fn : jsval) : M jsval :=
  _ ← _or this;
  o ← read_TriggerBuilder this;
  OperationBuilder.new (builder o) fn.

Definition _if (this : loc) (fn : jsval) : M jsval :=
  _ ← _or this;
  o ← read_TriggerBuilder this;
  ConditionBuilder.new (builder o) fn.

Definition channel (this : loc) (s : jsval) : M jsval :=
  c ← ChannelTriggerConfig.new s (VRef this); _setTrigger this c.

Definition cron (this : loc) (s : jsval) : M jsval :=
  c ← CronTriggerConfig.new s (VRef this); _setTrigger this c.

Definition item (this : loc) (s : jsval) : M jsval :=
  c ← ItemTriggerConfig.new s (VBool false) (VRef this); _setTrigger this c.

Definition memberOf (this : loc) (s : jsval) : M jsval :=
  c ← ItemTriggerConfig.new s (VBool true) (VRef this); _setTrigger this c.

Definition thing (this : loc) (s : jsval) : M jsval :=
  c ← ThingTriggerConfig.new s (VRef this); _setTrigger this c.

(** [new ItemTriggerConfig('vTimeOfDay', this)]: the call passes two
    arguments to the three-parameter constructor, so [this] is received
    as [isGroup] and [triggerBuilder] is [undefined]. *)
Definition timeOfDay (this : loc) (s : jsval) : M jsval :=
  c ← ItemTriggerConfig.new (VStr "vTimeOfDay") (VRef this) VUndef;
  c ← invoke c ItemTriggerConfig.changed;
  c ← invoke c (λ c, ItemTriggerConfig.to c s);
  _setTrigger this c.

Definition system (this : loc) : M jsval :=
  c ← SystemTriggerConfig.new (VRef this); _setTrigger this c.
End TriggerBuilder.

(** ** class TriggerConf: the methods every configuration inherits *)

Module TriggerConf.
(** [this.triggerBuilder], whatever the subclass of the receiver. *)
Definition triggerBuilder (this : loc) : M jsval := λ h,
  match h !! this with
  | Some (OChannel o) => Ok (channel_triggerBuilder o) h
  | Some (OCron o) => Ok (cron_triggerBuilder o) h
  | Some (OItem o) => Ok (item_triggerBuilder o) h
  | Some (OThing o) => Ok (thing_triggerBuilder o) h
  | Some (OSystem o) => Ok (system_triggerBuilder o) h
  | _ => wrong_receiver h
  end.

Definition or (this : loc) : M jsval :=
  tb ← triggerBuilder this; invoke tb TriggerBuilder._or.

Definition then_ (this : loc) (fn : jsval) : M jsval :=
  tb ← triggerBuilder this; invoke tb (λ tb, TriggerBuilder._then tb fn).

Definition if_ (this : loc) (fn : jsval) : M jsval :=
  tb ← triggerBuilder this; invoke tb (λ tb, TriggerBuilder._if tb fn).
End TriggerConf.

(** ** Observations on results *)

(** The returned value, when the computation returns. *)
Definition returned {A} (r : Res A) : option A :=
  match r with Ok a _ => Some a | Throw _ _ => None end.

Definition raises {A} (r : Res A) : bool :=
  match r with Ok _ _ => false | Throw _ _ => true end.

(** The rule builder's trigger collection. *)
Definition triggerConfs (h : Heap) (rb : loc) : option (list jsval) :=
  match h !! rb with
  | Some (ORuleBuilder confs) => Some confs
  | _ => None
  end.

(** The expression [channel('a').triggered('x').or().cron('0 0 * * * ?')]
    on a [new TriggerBuilder(rb)] for a new rule builder [rb]; the result
    pairs the rule builder with the value of the expression. *)
Definition channel_or_cron : M (jsval * jsval) :=
  rb ← RuleBuilder.new;
  tb ← TriggerBuilder.new rb;
  c ← invoke tb (λ tb, TriggerBuilder.channel tb (VStr "a"));
  c ← invoke c (λ c, ChannelTriggerConfig.triggered c (VStr "x"));
  tb' ← invoke c TriggerConf.or;
  k ← invoke tb' (λ tb, TriggerBuilder.cron tb (VStr "0 0 * * * ?"));
  mret (rb, k).

(** [new C(...).m()], for a constructor call [ctor] and a method [m]. *)
Definition after_construction {A} (ctor : M jsval) (m : loc → M A) : M A :=
  c ← ctor; invoke c m.

(** ** Chains, sample stores and observations used in the statements *)

(** What [from] throws: a string. *)
Definition from_error : exn :=
  Thrown (VStr ".from(..) only available for .changed()").

(** A store with an item configuration without operation kind, a group
    configuration set to 'changed', a thing configuration set to 'updated'
    and one set to 'changed'. *)
Definition sample_configs : Heap :=
  [ OItem (mkItem VUndef "item" (VStr "Lamp") VUndef VUndef VUndef);
    OItem (mkItem VUndef "memberOf" (VStr "Lights") (VStr "changed") (VStr "ON") VUndef);
    OThing (mkThing VUndef (VStr "hue:1") (VStr "updated") VUndef VUndef);
    OThing (mkThing VUndef (VStr "hue:2") (VStr "changed") VUndef VUndef) ].

(** A level setter followed by [_toOHTriggers()] on its result. *)
Definition level_then_triggers (set : loc → M jsval) (l : loc) : M (list EngineTrigger) :=
  c ← set l; invoke c SystemTriggerConfig._toOHTriggers.

(** The operation kinds the conversions recognize. *)
Definition item_kinds : list jsval :=
  [VStr "changed"; VStr "receivedCommand"; VStr "receivedUpdate"].

Definition thing_kinds : list jsval := [VStr "changed"; VStr "updated"].

(** A thing configuration without operation kind and one whose field
    was set from outside the fluent interface. *)
Definition odd_things : Heap :=
  [ OThing (mkThing VUndef (VStr "hue:1") VUndef VUndef VUndef);
    OThing (mkThing VUndef (VStr "hue:2") (VNum 7) VUndef VUndef) ].

(** What [next] receives: the middleware run with the identity as [next]. *)
Definition forwarded (hook : Hook) (args : Args) : Args := hook Args id args.

(** Every key of [args] keeps its value in [args']. *)
Definition keeps_existing_keys (args args' : Args) : Prop :=
  ∀ k v, args !! k = Some v → args' !! k = Some v.

(** A configuration set to 'receivedCommand', and arguments that already
    carry a key [it]. *)
Definition command_config : Heap :=
  [ OItem (mkItem VUndef "item" (VStr "Lamp") (VStr "receivedCommand") VUndef VUndef) ].

Definition args_with_it : Args :=
  <["receivedCommand" := VStr "ON"]> (<["it" := VStr "mine"]> ∅).

(** A new rule builder and a new trigger builder for it. *)
Definition new_session : Heap :=
  [ ORuleBuilder []; OTriggerBuilder (mkTriggerBuilder (VRef 0) VUndef) ].

(** [starter(g).kind()._toOHTriggers()] on the builder [tb]. *)
Definition item_chain (starter : loc → jsval → M jsval) (kind : loc → M jsval)
    (tb : loc) (g : jsval) : M (list EngineTrigger) :=
  c ← starter tb g;
  c ← invoke c kind;
  invoke c ItemTriggerConfig._toOHTriggers.

(** The collection of the rule builder a chain returns first. *)
Definition registered {A} (chain : M (jsval * A)) (h : Heap) : option (list jsval) :=
  match chain h with
  | Ok (VRef rb, _) h' => triggerConfs h' rb
  | _ => None
  end.

(** The same expression followed by [.or()], and by [.then(fn)], on the
    cron configuration. *)
Definition channel_or_cron_or : M (jsval * jsval) :=
  r ← channel_or_cron;
  tb ← invoke r.2 TriggerConf.or;
  mret (r.1, tb).

Definition channel_or_cron_then (fn : jsval) : M (jsval * jsval) :=
  r ← channel_or_cron;
  s ← invoke r.2 (λ k, TriggerConf.then_ k fn);
  mret (r.1, s).

(** The same expression followed by [.if(fn)] on the cron configuration. *)
Definition channel_or_cron_if (fn : jsval) : M (jsval * jsval) :=
  r ← channel_or_cron;
  s ← invoke r.2 (λ k, TriggerConf.if_ k fn);
  mret (r.1, s).

(** [undefined] and [null]: the values that have no properties. *)
Definition nullish (v : jsval) : bool :=
  match v with VUndef | VNull => true | _ => false end.

(** [new TriggerBuilder(rb).timeOfDay(p)] for a new rule builder [rb]. *)
Definition timeOfDay_chain (p : jsval) : M jsval :=
  rb ← RuleBuilder.new;
  tb ← TriggerBuilder.new rb;
  invoke tb (λ tb, TriggerBuilder.timeOfDay tb p).

(** [new TriggerBuilder(rb).item('vTimeOfDay').changed().to(p)] for a new
    rule builder [rb]. *)
Definition item_changed_to_chain (p : jsval) : M jsval :=
  rb ← RuleBuilder.new;
  tb ← TriggerBuilder.new rb;
  c ← invoke tb (λ tb, TriggerBuilder.item tb (VStr "vTimeOfDay"));
  c ← invoke c ItemTriggerConfig.changed;
  invoke c (λ c, ItemTriggerConfig.to c p).

(** [new TriggerBuilder(rb).item(name).changed()] followed by a
    description method. *)
Definition describe_changed_chain (describe : loc → jsval → M string)
    (name compact : jsval) : M string :=
  rb ← RuleBuilder.new;
  tb ← TriggerBuilder.new rb;
  c ← invoke tb (λ tb, TriggerBuilder.item tb name);
  c ← invoke c ItemTriggerConfig.changed;
  invoke c (λ c, describe c compact).

(** ** Calls by name, for statements about every method or starter *)

(** The store a computation leaves, whether it returns or raises. *)
Definition store_after {A} (r : Res A) : Heap :=
  match r with Ok _ h => h | Throw _ h => h end.

(** The refinement methods of the configuration classes, with their
    arguments. *)
Inductive Method :=
| MTo (value : jsval)
| MOf (value : jsval)
| MFrom (value : jsval)
| MToOn
| MToOff
| MTriggered (eventName : jsval)
| MReceivedCommand
| MReceivedUpdate
| MChanged
| MUpdated
| MStartLevel (level : jsval)
| MRulesLoaded
| MRuleEngineStarted
| MUserInterfacesStarted
| MThingsInitialized
| MStartupComplete.

Definition not_a_function {A} : M A := throw (TypeError "is not a function").

(** [this.m(...)]: the method is looked up in the class of the receiver;
    calling a name the class does not define is a TypeError.  [of] is the
    own property the item constructor sets to [to]. *)
Definition call (m : Method) (this : loc) : M jsval := λ h,
  match h !! this with
  | Some (OChannel _) =>
      match m with
      | MTo e => ChannelTriggerConfig.to this e h
      | MTriggered e => ChannelTriggerConfig.triggered this e h
      | _ => not_a_function h
      end
  | Some (OItem _) =>
      match m with
      | MTo v => ItemTriggerConfig.to this v h
      | MOf v => ItemTriggerConfig.of_ this v h
      | MFrom v => ItemTriggerConfig.from this v h
      | MToOn => ItemTriggerConfig.toOn this h
      | MToOff => ItemTriggerConfig.toOff this h
      | MReceivedCommand => ItemTriggerConfig.receivedCommand this h
      | MReceivedUpdate => ItemTriggerConfig.receivedUpdate this h
      | MChanged => ItemTriggerConfig.changed this h
      | _ => not_a_function h
      end
  | Some (OThing _) =>
      match m with
      | MTo v => ThingTriggerConfig.to this v h
      | MFrom v => ThingTriggerConfig.from this v h
      | MChanged => ThingTriggerConfig.changed this h
      | MUpdated => ThingTriggerConfig.updated this h
      | _ => not_a_function h
      end
  | Some (OSystem _) =>
      match m with
      | MStartLevel n => SystemTriggerConfig.startLevel this n h
      | MRulesLoaded => SystemTriggerConfig.rulesLoaded this h
      | MRuleEngineStarted => SystemTriggerConfig.ruleEngineStarted this h
      | MUserInterfacesStarted => SystemTriggerConfig.userInterfacesStarted this h
      | MThingsInitialized => SystemTriggerConfig.thingsInitialized this h
      | MStartupComplete => SystemTriggerConfig.startupComplete this h
      | _ => not_a_function h
      end
  | _ => not_a_function h
  end.

(** [c.m1(...).m2(...)...]: each method is called on the value the
    previous one returned. *)
Fixpoint call_all (ms : list Method) (c : jsval) : M jsval :=
  match ms with
  | [] => mret c
  | m :: ms => c ← invoke c (call m); call_all ms c
  end.

(** An object with its refinement attributes (event name, operation
    kind, to- and from-value, level) reset: what remains identifies it. *)
Definition identity_of (o : object) : object :=
  match o with
  | OChannel c => OChannel (mkChannel (channel_triggerBuilder c) (channelName c) VUndef)
  | OItem i =>
      OItem (mkItem (item_triggerBuilder i) (type i) (item_name i) VUndef VUndef VUndef)
  | OThing t => OThing (mkThing (thing_triggerBuilder t) (thingUID t) VUndef VUndef VUndef)
  | OSystem s => OSystem (mkSystem (system_triggerBuilder s) VUndef)
  | _ => o
  end.

(** The starter methods of the builder, with their arguments; items and
    groups are given by name. *)
Inductive Starter :=
| SChannel (s : jsval)
| SCron (s : jsval)
| SItem (s : string)
| SMemberOf (s : string)
| SThing (s : jsval)
| STimeOfDay (s : jsval)
| SSystem.

Definition start (st : Starter) (tb : loc) : M jsval :=
  match st with
  | SChannel s => TriggerBuilder.channel tb s
  | SCron s => TriggerBuilder.cron tb s
  | SItem s => TriggerBuilder.item tb (VStr s)
  | SMemberOf s => TriggerBuilder.memberOf tb (VStr s)
  | SThing s => TriggerBuilder.thing tb s
  | STimeOfDay s => TriggerBuilder.timeOfDay tb s
  | SSystem => TriggerBuilder.system tb
  end.

(** The configuration object a starter creates for the builder [tb]. *)
Definition started (st : Starter) (tb : loc) : object :=
  match st with
  | SChannel s => OChannel (mkChannel (VRef tb) s VUndef)
  | SCron s => OCron (mkCron (VRef tb) s)
  | SItem s => OItem (mkItem (VRef tb) "item" (VStr s) VUndef VUndef VUndef)
  | SMemberOf s => OItem (mkItem (VRef tb) "memberOf" (VStr s) VUndef VUndef VUndef)
  | SThing s => OThing (mkThing (VRef tb) s VUndef VUndef VUndef)
  | STimeOfDay s =>
      OItem (mkItem VUndef "memberOf" (VStr "vTimeOfDay") (VStr "changed") s VUndef)
  | SSystem => OSystem (mkSystem (VRef tb) VUndef)
  end.

Definition is_timeOfDay (st : Starter) : bool :=
  match st with STimeOfDay _ => true | _ => false end.

(** [tb.s1(...).or().s2(...).or()...]: every starter is followed by
    [or()] on the configuration it returned. *)
Fixpoint or_chain (sts : list Starter) (tb : jsval) : M jsval :=
  match sts with
  | [] => mret tb
  | st :: sts =>
      c ← invoke tb (start st);
      tb ← invoke c TriggerConf.or;
      or_chain sts tb
  end.

(** [tb.s1(...).s2(...)._or()] and [c1 = tb.s1(...); tb.s2(...); c1.or()]:
    a second starter before any combinator. *)
Definition start_twice_or (st1 st2 : Starter) (tb : loc) : M jsval :=
  _ ← start st1 tb; _ ← start st2 tb; TriggerBuilder._or tb.

Definition stale_or (st1 st2 : Starter) (tb : loc) : M jsval :=
  c1 ← start st1 tb; _ ← start st2 tb; invoke c1 TriggerConf.or.

(** A refinement chain on a configuration, then its conversion. *)
Definition refine_then_convert (ms : list Method)
    (convert : loc → M (list EngineTrigger)) (c : loc) : M (list EngineTrigger) :=
  c ← call_all ms (VRef c); invoke c convert.

(** The methods that set the operation kind of an item or group
    configuration, and of a thing configuration. *)
Definition item_kind_methods : list Method := [MReceivedCommand; MReceivedUpdate; MChanged].

Definition thing_kind_methods : list Method := [MChanged; MUpdated].

(** [this.m1(...).m2(...)]. *)
Definition call_twice (m1 m2 : Method) (this : loc) : M jsval :=
  c ← call m1 this; invoke c (call m2).

(** [this.m(...)._complete()] on an item or group configuration and on a
    thing configuration. *)
Definition item_call_complete (m : Method) (this : loc) : M bool :=
  c ← call m this; invoke c ItemTriggerConfig._complete.

Definition thing_call_complete (m : Method) (this : loc) : M bool :=
  c ← call m this; invoke c ThingTriggerConfig._complete.

Definition system_call_complete (m : Method) (this : loc) : M bool :=
  c ← call m this; invoke c SystemTriggerConfig._complete.

(** [tb.starter(...).m1(...)...mk(...)._toOHTriggers()]. *)
Definition started_chain (st : Starter) (ms : list Method)
    (convert : loc → M (list EngineTrigger)) (tb : loc) : M (list EngineTrigger) :=
  c ← start st tb; c ← call_all ms c; invoke c convert.

(** [new ItemTriggerConfig(itemOrName, isGroup, triggerBuilder).describe(compact)]. *)
Definition new_item_describe (itemOrName isGroup triggerBuilder compact : jsval) : M string :=
  after_construction (ItemTriggerConfig.new itemOrName isGroup triggerBuilder)
    (λ c, ItemTriggerConfig.describe c compact).

(** [tb._or()._or()]: registration twice in a row. *)
Definition or_twice (tb : loc) : M jsval :=
  b ← TriggerBuilder._or tb; invoke b TriggerBuilder._or.

(** A store with an object that has a [name] and one that has none. *)
Definition named_objects : Heap :=
  [ OPlain (<["name" := VStr "Lamp"]> ∅); OPlain ∅ ].

(** [tb.starter(...).m1(...)...mk(...).then(fn)] and the same with
    [if(fn)]: a whole trigger declaration. *)
Definition declare_then (st : Starter) (ms : list Method) (fn : jsval) (tb : loc) : M jsval :=
  c ← start st tb; c ← call_all ms c; invoke c (λ c, TriggerConf.then_ c fn).

Definition declare_if (st : Starter) (ms : list Method) (fn : jsval) (tb : loc) : M jsval :=
  c ← start st tb; c ← call_all ms c; invoke c (λ c, TriggerConf.if_ c fn).

(** * Properties *)

#[global] Instance jsval_eq_dec : EqDecision jsval.
Proof. solve_decision. Defined.

(** ** The store *)

Section store.
Implicit Types (h ext : Heap) (o : object) (l k : loc).

Lemma heap_lookup_ext h ext k : (h ++ ext) !! (length h + k) = ext !! k.
Proof.
  rewrite lookup_app_r by lia. f_equal. lia.
Qed.

Lemma heap_lookup_first h o ext : (h ++ o :: ext) !! length h = Some o.
Proof. by apply list_lookup_middle. Qed.

Lemma heap_insert_first h o o' ext :
  <[length h := o']> (h ++ o :: ext) = h ++ o' :: ext.
Proof.
  replace (length h) with (length h + 0) by lia. by rewrite insert_app_r.
Qed.

Lemma heap_lookup_old h ext l o : h !! l = Some o → (h ++ ext) !! l = Some o.
Proof. apply lookup_app_l_Some. Qed.

Lemma heap_insert_old h ext l o o' :
  h !! l = Some o → <[l := o']> (h ++ ext) = <[l := o']> h ++ ext.
Proof. intros Hl. apply insert_app_l. by eapply lookup_lt_Some. Qed.

Lemma heap_lookup_insert h l o o' : h !! l = Some o → <[l := o']> h !! l = Some o'.
Proof. intros Hl. apply list_lookup_insert_eq. by eapply lookup_lt_Some. Qed.

End store.

(** Unfolding of the monad and of the method bodies. *)
Ltac unfold_monad :=
  unfold mbind, M_bind, mret, M_ret, throw, wrong_receiver, throw_error, write,
    invoke, after_construction,
    read_TriggerBuilder, read_Channel, read_Cron, read_Item, read_Thing,
    read_System in *.

(** Symbolic execution over a store [h ++ ext], references [length h + k]. *)
Ltac heap_step :=
  first [ rewrite length_app
        | rewrite Nat.add_0_r
        | rewrite <- Nat.add_assoc
        | rewrite <- app_assoc
        | rewrite heap_lookup_ext
        | rewrite insert_app_r
        | rewrite heap_lookup_first
        | rewrite heap_insert_first ].

Ltac exec := repeat (unfold_monad; cbn; try heap_step).

(** ** Completeness after construction *)

(** C7 as stated fails for the item class: the constructor given
    [undefined] as name raises, so that no configuration exists of which
    [_complete()] could return false. *)
Lemma item_constructor_raises_on_undefined :
  returned (after_construction (ItemTriggerConfig.new VUndef (VBool false) VUndef)
              ItemTriggerConfig._complete [])
    ≠ Some false.
Proof. discriminate. Qed.

(** C7, amended.  Right after construction [_complete()] is false for a
    channel, item, thing and system configuration and true for a cron
    configuration, for every constructor argument with which the
    constructor returns.  The item constructor returns for every name
    other than [undefined] and [null]: a string is the name itself, any
    other value is replaced by its [name] property; for [undefined] and
    [null] it raises a TypeError and enters nothing in the store.  The
    other constructors always return. *)
Theorem complete_after_construction (h : Heap) :
  (∀ n tb, after_construction (ChannelTriggerConfig.new n tb)
             ChannelTriggerConfig._complete h
           = Ok false (h ++ [OChannel (mkChannel tb n VUndef)])) ∧
  (∀ s tb, after_construction (CronTriggerConfig.new s tb)
             CronTriggerConfig._complete h
           = Ok true (h ++ [OCron (mkCron tb s)])) ∧
  (∀ (s : string) g tb,
      after_construction (ItemTriggerConfig.new (VStr s) g tb)
        ItemTriggerConfig._complete h
      = Ok false (h ++ [OItem (mkItem tb (if truthy g then "memberOf" else "item")
                                      (VStr s) VUndef VUndef VUndef)])) ∧
  (∀ l props g tb,
      h !! l = Some (OPlain props) →
      after_construction (ItemTriggerConfig.new (VRef l) g tb)
        ItemTriggerConfig._complete h
      = Ok false (h ++ [OItem (mkItem tb (if truthy g then "memberOf" else "item")
                                      (default VUndef (props !! "name"))
                                      VUndef VUndef VUndef)])) ∧
  (∀ n g tb,
      nullish n = false →
      ∃ name,
        get_name n h = Ok name h ∧
        after_construction (ItemTriggerConfig.new n g tb)
          ItemTriggerConfig._complete h
        = Ok false (h ++ [OItem (mkItem tb (if truthy g then "memberOf" else "item")
                                        (if String.eqb (typeof n) "string" then n else name)
                                        VUndef VUndef VUndef)])) ∧
  (∀ n g tb,
      nullish n = true →
      after_construction (ItemTriggerConfig.new n g tb)
        ItemTriggerConfig._complete h
      = Throw (TypeError "Cannot read properties of undefined or null") h) ∧
  (∀ u tb, after_construction (ThingTriggerConfig.new u tb)
             ThingTriggerConfig._complete h
           = Ok false (h ++ [OThing (mkThing tb u VUndef VUndef VUndef)])) ∧
  (∀ tb, after_construction (SystemTriggerConfig.new tb)
           SystemTriggerConfig._complete h
         = Ok false (h ++ [OSystem (mkSystem tb VUndef)])).
Proof.
  split; [|split; [|split; [|split; [|split; [|split; [|split]]]]]].
  - intros n tb.
    unfold ChannelTriggerConfig.new, ChannelTriggerConfig._complete, alloc.
    by exec.
  - intros s tb.
    unfold CronTriggerConfig.new, CronTriggerConfig._complete, alloc.
    by exec.
  - intros s g tb.
    unfold ItemTriggerConfig.new, ItemTriggerConfig._complete, alloc.
    by exec.
  - intros l props g tb Hl.
    unfold ItemTriggerConfig.new, ItemTriggerConfig._complete, alloc, get_name.
    repeat (unfold_monad; cbn; try first [rewrite Hl | rewrite heap_lookup_first]).
    reflexivity.
  - intros n g tb Hn.
    unfold ItemTriggerConfig.new, ItemTriggerConfig._complete, alloc, get_name.
    destruct n as [| |b|z|s|l]; try discriminate.
    + eexists. split; [reflexivity|]. by exec.
    + eexists. split; [reflexivity|]. by exec.
    + eexists. split; [reflexivity|]. by exec.
    + destruct (h !! l) as [[]|] eqn:Hl;
        (eexists; split; [reflexivity|];
         repeat (unfold_monad; cbn; try first [rewrite Hl | rewrite heap_lookup_first]);
         reflexivity).
  - intros n g tb Hn.
    unfold ItemTriggerConfig.new, ItemTriggerConfig._complete, get_name.
    by destruct n as [| |b|z|s|l]; try discriminate.
  - intros u tb.
    unfold ThingTriggerConfig.new, ThingTriggerConfig._complete, alloc.
    by exec.
  - intros tb.
    unfold SystemTriggerConfig.new, SystemTriggerConfig._complete, alloc.
    by exec.
Qed.

Lemma complete_after_construction_witness :
  after_construction (ItemTriggerConfig.new (VRef 0) (VBool true) VUndef)
    ItemTriggerConfig._complete named_objects
  = Ok false
      (named_objects ++
       [OItem (mkItem VUndef "memberOf" (VStr "Lamp") VUndef VUndef VUndef)]) ∧
  after_construction (ItemTriggerConfig.new VNull (VBool true) VUndef)
    ItemTriggerConfig._complete named_objects
  = Throw (TypeError "Cannot read properties of undefined or null") named_objects.
Proof.
  destruct (complete_after_construction named_objects)
    as (_ & _ & _ & Hobj & _ & Hnull & _).
  split.
  - exact (Hobj 0%nat _ (VBool true) VUndef eq_refl).
  - exact (Hnull VNull (VBool true) VUndef eq_refl).
Defined.

(** ** [from] is reserved to [changed] *)

Lemma loose_neq_changed_spec (v : jsval) :
  loose_neq_changed v = negb (bool_decide (v = VStr "changed")).
Proof.
  destruct v as [| |b|z|s|l]; cbn; try reflexivity.
  destruct (String.eqb_spec s "changed") as [->|Hne]; cbn.
  - by rewrite bool_decide_eq_true_2.
  - rewrite bool_decide_eq_false_2; [done | congruence].
Qed.

Lemma item_from_spec (h : Heap) (l : loc) (o : ItemObj) (v : jsval) :
  h !! l = Some (OItem o) →
  ItemTriggerConfig.from l v h =
    if bool_decide (item_op_type o = VStr "changed")
    then Ok (VRef l)
           (<[l := OItem (mkItem (item_triggerBuilder o) (type o) (item_name o)
                                 (item_op_type o) (item_to_value o) v)]> h)
    else Throw from_error h.
Proof.
  intros Hl. unfold ItemTriggerConfig.from. unfold_monad. rewrite Hl.
  rewrite loose_neq_changed_spec. by case_bool_decide.
Qed.

Lemma thing_from_spec (h : Heap) (l : loc) (o : ThingObj) (v : jsval) :
  h !! l = Some (OThing o) →
  ThingTriggerConfig.from l v h =
    if bool_decide (thing_op_type o = VStr "changed")
    then Ok (VRef l)
           (<[l := OThing (mkThing (thing_triggerBuilder o) (thingUID o)
                                   (thing_op_type o) (thing_to_value o) v)]> h)
    else Throw from_error h.
Proof.
  intros Hl. unfold ThingTriggerConfig.from. unfold_monad. rewrite Hl.
  rewrite loose_neq_changed_spec. by case_bool_decide.
Qed.

(** C5.  On an item (or group) configuration and on a thing
    configuration, [from(v)] raises unless the operation kind is
    'changed' (also when no kind was set: the field is then [undefined]);
    when the kind is 'changed' it stores [v] as the from-value and returns
    the receiver. *)
Theorem from_only_when_changed :
  (∀ (h : Heap) (l : loc) (o : ItemObj) (v : jsval),
      h !! l = Some (OItem o) →
      (item_op_type o ≠ VStr "changed" →
         ItemTriggerConfig.from l v h = Throw from_error h) ∧
      (item_op_type o = VStr "changed" →
         ItemTriggerConfig.from l v h =
           Ok (VRef l)
             (<[l := OItem (mkItem (item_triggerBuilder o) (type o) (item_name o)
                                   (VStr "changed") (item_to_value o) v)]> h))) ∧
  (∀ (h : Heap) (l : loc) (o : ThingObj) (v : jsval),
      h !! l = Some (OThing o) →
      (thing_op_type o ≠ VStr "changed" →
         ThingTriggerConfig.from l v h = Throw from_error h) ∧
      (thing_op_type o = VStr "changed" →
         ThingTriggerConfig.from l v h =
           Ok (VRef l)
             (<[l := OThing (mkThing (thing_triggerBuilder o) (thingUID o)
                                     (VStr "changed") (thing_to_value o) v)]> h))).
Proof.
  split; intros h l o v Hl.
  - rewrite (item_from_spec h l o v Hl). split; intros Hk.
    + by rewrite bool_decide_eq_false_2.
    + rewrite bool_decide_eq_true_2 by done. by rewrite Hk.
  - rewrite (thing_from_spec h l o v Hl). split; intros Hk.
    + by rewrite bool_decide_eq_false_2.
    + rewrite bool_decide_eq_true_2 by done. by rewrite Hk.
Qed.

Lemma from_only_when_changed_witness :
  ItemTriggerConfig.from 0 (VStr "OFF") sample_configs
    = Throw from_error sample_configs ∧
  returned (ItemTriggerConfig.from 1 (VStr "OFF") sample_configs) = Some (VRef 1) ∧
  ThingTriggerConfig.from 2 (VStr "OFFLINE") sample_configs
    = Throw from_error sample_configs ∧
  returned (ThingTriggerConfig.from 3 (VStr "OFFLINE") sample_configs) = Some (VRef 3).
Proof.
  destruct from_only_when_changed as [Hitem Hthing].
  split; [|split; [|split]].
  - refine (proj1 (Hitem sample_configs 0%nat _ (VStr "OFF") eq_refl) _). discriminate.
  - rewrite (proj2 (Hitem sample_configs 1%nat _ (VStr "OFF") eq_refl) eq_refl).
    reflexivity.
  - refine (proj1 (Hthing sample_configs 2%nat _ (VStr "OFFLINE") eq_refl) _). discriminate.
  - rewrite (proj2 (Hthing sample_configs 3%nat _ (VStr "OFFLINE") eq_refl) eq_refl).
    reflexivity.
Defined.

(** ** System start levels *)

Lemma startLevel_spec (h : Heap) (l : loc) (o : SystemObj) (n : jsval) :
  h !! l = Some (OSystem o) →
  SystemTriggerConfig.startLevel l n h =
    Ok (VRef l) (<[l := OSystem (mkSystem (system_triggerBuilder o) n)]> h).
Proof.
  intros Hl. unfold SystemTriggerConfig.startLevel. unfold_monad. by rewrite Hl.
Qed.

Lemma system_toOHTriggers_spec (h : Heap) (l : loc) (o : SystemObj) :
  h !! l = Some (OSystem o) →
  SystemTriggerConfig._toOHTriggers l h = Ok [SystemStartlevelTrigger (level o)] h.
Proof.
  intros Hl. unfold SystemTriggerConfig._toOHTriggers. unfold_monad. by rewrite Hl.
Qed.

Lemma level_then_triggers_spec (h : Heap) (l : loc) (o : SystemObj) (n : jsval) :
  h !! l = Some (OSystem o) →
  level_then_triggers (λ l, SystemTriggerConfig.startLevel l n) l h =
    Ok [SystemStartlevelTrigger n]
       (<[l := OSystem (mkSystem (system_triggerBuilder o) n)]> h).
Proof.
  intros Hl. unfold level_then_triggers.
  unfold mbind at 1, M_bind. rewrite (startLevel_spec h l o n Hl). cbn.
  rewrite (system_toOHTriggers_spec _ l (mkSystem (system_triggerBuilder o) n));
    [reflexivity|].
  by eapply heap_lookup_insert.
Qed.

(** C8.  On a system configuration the named setters store 40, 50, 70,
    80 and 100, [startLevel(n)] stores [n]; each returns the receiver, and
    [_toOHTriggers()] then emits the start-level trigger of that level. *)
Theorem system_levels (h : Heap) (l : loc) (o : SystemObj) :
  h !! l = Some (OSystem o) →
  let set n := Ok (VRef l) (<[l := OSystem (mkSystem (system_triggerBuilder o) n)]> h) in
  let emit n := Ok [SystemStartlevelTrigger n]
                  (<[l := OSystem (mkSystem (system_triggerBuilder o) n)]> h) in
  SystemTriggerConfig.rulesLoaded l h = set (VNum 40) ∧
  SystemTriggerConfig.ruleEngineStarted l h = set (VNum 50) ∧
  SystemTriggerConfig.userInterfacesStarted l h = set (VNum 70) ∧
  SystemTriggerConfig.thingsInitialized l h = set (VNum 80) ∧
  SystemTriggerConfig.startupComplete l h = set (VNum 100) ∧
  (∀ n, SystemTriggerConfig.startLevel l n h = set n) ∧
  level_then_triggers SystemTriggerConfig.rulesLoaded l h = emit (VNum 40) ∧
  level_then_triggers SystemTriggerConfig.ruleEngineStarted l h = emit (VNum 50) ∧
  level_then_triggers SystemTriggerConfig.userInterfacesStarted l h = emit (VNum 70) ∧
  level_then_triggers SystemTriggerConfig.thingsInitialized l h = emit (VNum 80) ∧
  level_then_triggers SystemTriggerConfig.startupComplete l h = emit (VNum 100) ∧
  (∀ n, level_then_triggers (λ l, SystemTriggerConfig.startLevel l n) l h = emit n).
Proof.
  intros Hl set emit. subst set emit.
  unfold SystemTriggerConfig.rulesLoaded, SystemTriggerConfig.ruleEngineStarted,
    SystemTriggerConfig.userInterfacesStarted, SystemTriggerConfig.thingsInitialized,
    SystemTriggerConfig.startupComplete.
  pose proof (startLevel_spec h l o) as Hset.
  pose proof (level_then_triggers_spec h l o) as Hemit.
  repeat (apply conj); intros; first [by apply Hset | by apply Hemit].
Qed.

Lemma system_levels_witness :
  let h := [OSystem (mkSystem VUndef VUndef)] in
  SystemTriggerConfig.rulesLoaded 0 h
    = Ok (VRef 0) [OSystem (mkSystem VUndef (VNum 40))] ∧
  level_then_triggers SystemTriggerConfig.startupComplete 0 h
    = Ok [SystemStartlevelTrigger (VNum 100)] [OSystem (mkSystem VUndef (VNum 100))].
Proof.
  intros h.
  pose proof (system_levels h 0%nat (mkSystem VUndef VUndef) eq_refl) as H.
  cbv zeta in H.
  split; [exact (proj1 H) | exact (proj1 (proj2 (proj2 (proj2 (proj2 (proj2 (proj2 (proj2 (proj2 (proj2 (proj2 H)))))))))))].
Defined.

(** ** Conversion with an unrecognized operation kind *)

Lemma strict_eq_str_false (v : jsval) (s : string) :
  v ≠ VStr s → strict_eq_str v s = false.
Proof.
  intros Hne. destruct v as [| |b|z|t|l]; cbn; try reflexivity.
  destruct (String.eqb_spec t s) as [->|]; [done | reflexivity].
Qed.

Lemma strict_eq_str_true (s : string) : strict_eq_str (VStr s) s = true.
Proof. cbn. apply String.eqb_refl. Qed.

(** C9.  [_toOHTriggers()] on an item (or group) configuration and on a
    thing configuration raises when the operation-kind field is
    [undefined] or any value outside the recognized kinds.  The exception
    is the ReferenceError of the unbound [error]. *)
Theorem toOHTriggers_unrecognized_kind :
  (∀ (h : Heap) (l : loc) (o : ItemObj),
      h !! l = Some (OItem o) → item_op_type o ∉ item_kinds →
      ItemTriggerConfig._toOHTriggers l h
        = Throw (ReferenceError "error is not defined") h) ∧
  (∀ (h : Heap) (l : loc) (o : ThingObj),
      h !! l = Some (OThing o) → thing_op_type o ∉ thing_kinds →
      ThingTriggerConfig._toOHTriggers l h
        = Throw (ReferenceError "error is not defined") h).
Proof.
  split; intros h l o Hl Hk.
  - unfold item_kinds in Hk. rewrite !not_elem_of_cons in Hk.
    destruct Hk as (H1 & H2 & H3 & _).
    unfold ItemTriggerConfig._toOHTriggers. unfold_monad. rewrite Hl.
    rewrite !strict_eq_str_false by done.
    by destruct (String.eqb (type o) "memberOf").
  - unfold thing_kinds in Hk. rewrite !not_elem_of_cons in Hk.
    destruct Hk as (H1 & H2 & _).
    unfold ThingTriggerConfig._toOHTriggers. unfold_monad. rewrite Hl.
    by rewrite !strict_eq_str_false by done.
Qed.

Lemma toOHTriggers_unrecognized_kind_witness :
  raises (ItemTriggerConfig._toOHTriggers 0 sample_configs) = true ∧
  raises (ThingTriggerConfig._toOHTriggers 1 odd_things) = true.
Proof.
  destruct toOHTriggers_unrecognized_kind as [Hitem Hthing].
  split.
  - rewrite (Hitem sample_configs 0%nat _ eq_refl); [reflexivity|].
    unfold item_kinds. rewrite !not_elem_of_cons. cbn.
    repeat (apply conj); try discriminate. apply not_elem_of_nil.
  - rewrite (Hthing odd_things 1%nat _ eq_refl); [reflexivity|].
    unfold thing_kinds. rewrite !not_elem_of_cons. cbn.
    repeat (apply conj); try discriminate. apply not_elem_of_nil.
Defined.

(** ** The execution hook *)

Lemma executeHook_spec (h : Heap) (l : loc) (o : ItemObj) :
  h !! l = Some (OItem o) →
  ItemTriggerConfig._executeHook l h =
    Ok (if strict_eq_str (item_op_type o) "receivedCommand"
        then Some (λ R next args,
                     next (<["it" := ItemTriggerConfig.getReceivedCommand args]> args))
        else None) h.
Proof.
  intros Hl. unfold ItemTriggerConfig._executeHook. unfold_monad. rewrite Hl.
  by destruct (strict_eq_str (item_op_type o) "receivedCommand").
Qed.

(** C3 as stated fails: the middleware of a 'receivedCommand'
    configuration does not keep the value of a key [it] that the
    arguments already have. *)
Lemma executeHook_overwrites_it :
  ¬ ∃ hook : Hook,
      ItemTriggerConfig._executeHook 0 command_config = Ok (Some hook) command_config ∧
      keeps_existing_keys args_with_it (forwarded hook args_with_it).
Proof.
  intros (hook & Hhook & Hkeep).
  rewrite (executeHook_spec command_config 0%nat _ eq_refl) in Hhook.
  cbn in Hhook. injection Hhook as <-.
  specialize (Hkeep "it" (VStr "mine")).
  unfold forwarded, args_with_it, ItemTriggerConfig.getReceivedCommand, id in Hkeep.
  rewrite lookup_insert_ne, !lookup_insert_eq in Hkeep by done.
  cbn in Hkeep. specialize (Hkeep eq_refl). discriminate.
Qed.

(** C3, amended.  For the kind 'receivedCommand', [_executeHook()] returns
    a middleware that calls [next] on the arguments extended with the key
    [it], bound to [args.receivedCommand]; every key other than [it] keeps
    its value, and a key [it] already present is overwritten.  For every
    other kind ('changed', 'receivedUpdate', none) it returns [null]. *)
Theorem executeHook_binds_it :
  (∀ (h : Heap) (l : loc) (o : ItemObj),
      h !! l = Some (OItem o) → item_op_type o = VStr "receivedCommand" →
      ∃ hook : Hook,
        ItemTriggerConfig._executeHook l h = Ok (Some hook) h ∧
        ∀ args : Args,
          (∀ (R : Type) (next : Args → R), hook R next args = next (forwarded hook args)) ∧
          forwarded hook args !! "it"
            = Some (ItemTriggerConfig.getReceivedCommand args) ∧
          (∀ k, k ≠ "it" → forwarded hook args !! k = args !! k)) ∧
  (∀ (h : Heap) (l : loc) (o : ItemObj),
      h !! l = Some (OItem o) → item_op_type o ≠ VStr "receivedCommand" →
      ItemTriggerConfig._executeHook l h = Ok None h).
Proof.
  split; intros h l o Hl Hk.
  - rewrite (executeHook_spec h l o Hl), Hk, strict_eq_str_true.
    eexists; split; [reflexivity|].
    intros args. unfold forwarded, id. split; [done|]. split.
    + apply lookup_insert_eq.
    + intros k Hne. by apply lookup_insert_ne.
  - rewrite (executeHook_spec h l o Hl). by rewrite strict_eq_str_false.
Qed.

Lemma executeHook_binds_it_witness :
  (∃ hook : Hook,
      ItemTriggerConfig._executeHook 0 command_config = Ok (Some hook) command_config ∧
      forwarded hook args_with_it !! "it" = Some (VStr "ON") ∧
      forwarded hook args_with_it !! "receivedCommand" = Some (VStr "ON")) ∧
  ItemTriggerConfig._executeHook 1 sample_configs = Ok None sample_configs ∧
  ItemTriggerConfig._executeHook 0 sample_configs = Ok None sample_configs.
Proof.
  destruct executeHook_binds_it as [Hcmd Hnull].
  split; [|split].
  - destruct (Hcmd command_config 0%nat _ eq_refl eq_refl) as (hook & Hhook & Hargs).
    exists hook. split; [exact Hhook|].
    destruct (Hargs args_with_it) as (_ & Hit & Hother).
    split; [exact Hit|]. rewrite Hother by done. reflexivity.
  - apply (Hnull sample_configs 1%nat _ eq_refl). discriminate.
  - apply (Hnull sample_configs 0%nat _ eq_refl). discriminate.
Defined.

(** ** Registration of the current trigger *)

Lemma addTrigger_spec (h : Heap) (rb : loc) (confs : list jsval) (v : jsval) :
  h !! rb = Some (ORuleBuilder confs) →
  RuleBuilder.addTrigger rb v h =
    Ok VUndef (<[rb := ORuleBuilder (confs ++ [v])]> h).
Proof. intros Hrb. unfold RuleBuilder.addTrigger. by rewrite Hrb. Qed.

Lemma or_spec (h : Heap) (tb rb : loc) (cur : jsval) (confs : list jsval) :
  h !! tb = Some (OTriggerBuilder (mkTriggerBuilder (VRef rb) cur)) →
  h !! rb = Some (ORuleBuilder confs) →
  TriggerBuilder._or tb h =
    Ok (VRef tb) (<[rb := ORuleBuilder (confs ++ [cur])]> h).
Proof.
  intros Htb Hrb. unfold TriggerBuilder._or. unfold_monad. rewrite Htb. cbn.
  by rewrite (addTrigger_spec h rb confs cur Hrb).
Qed.

(** Registration leaves the builder itself as it was. *)
Lemma or_keeps_builder (h : Heap) (tb rb : loc) (o : TriggerBuilderObj) (x : list jsval) :
  h !! tb = Some (OTriggerBuilder o) →
  is_Some (triggerConfs h rb) →
  <[rb := ORuleBuilder x]> h !! tb = Some (OTriggerBuilder o).
Proof.
  intros Htb [confs Hrb]. unfold triggerConfs in Hrb.
  rewrite list_lookup_insert_ne; [done|].
  intros ->. rewrite Htb in Hrb. discriminate.
Qed.

(** C10.  On a builder whose current-trigger slot was never set,
    [_or()], [_then(fn)] and [_if(fn)] do not raise: each passes the
    [undefined] slot to [addTrigger], so that the rule builder's
    collection receives an [undefined] entry. *)
Theorem combinators_without_starter
    (h : Heap) (tb rb : loc) (confs : list jsval) :
  h !! tb = Some (OTriggerBuilder (mkTriggerBuilder (VRef rb) VUndef)) →
  h !! rb = Some (ORuleBuilder confs) →
  let h' := <[rb := ORuleBuilder (confs ++ [VUndef])]> h in
  TriggerBuilder._or tb h = Ok (VRef tb) h' ∧
  (∀ fn, TriggerBuilder._then tb fn h
         = Ok (VRef (length h)) (h' ++ [OOperationBuilder (VRef rb) fn])) ∧
  (∀ fn, TriggerBuilder._if tb fn h
         = Ok (VRef (length h)) (h' ++ [OConditionBuilder (VRef rb) fn])) ∧
  triggerConfs h' rb = Some (confs ++ [VUndef]).
Proof.
  intros Htb Hrb h'.
  pose proof (or_spec h tb rb VUndef confs Htb Hrb) as Hor.
  assert (h' !! tb = Some (OTriggerBuilder (mkTriggerBuilder (VRef rb) VUndef))) as Htb'.
  { apply or_keeps_builder; [done|]. unfold triggerConfs. rewrite Hrb. by eexists. }
  assert (length h' = length h) as Hlen by apply length_insert.
  split; [exact Hor|]. split; [|split].
  - intros fn. unfold TriggerBuilder._then.
    unfold mbind at 1, M_bind. rewrite Hor. fold h'.
    unfold_monad. rewrite Htb'. cbn.
    unfold OperationBuilder.new, alloc. unfold_monad. by rewrite Hlen.
  - intros fn. unfold TriggerBuilder._if.
    unfold mbind at 1, M_bind. rewrite Hor. fold h'.
    unfold_monad. rewrite Htb'. cbn.
    unfold ConditionBuilder.new, alloc. unfold_monad. by rewrite Hlen.
  - unfold triggerConfs, h'. by rewrite (heap_lookup_insert h rb _ _ Hrb).
Qed.

Lemma combinators_without_starter_witness :
  TriggerBuilder._or 1 new_session
    = Ok (VRef 1)
        [ ORuleBuilder [VUndef]; OTriggerBuilder (mkTriggerBuilder (VRef 0) VUndef) ] ∧
  TriggerBuilder._then 1 (VStr "fn") new_session
    = Ok (VRef 2)
        [ ORuleBuilder [VUndef]; OTriggerBuilder (mkTriggerBuilder (VRef 0) VUndef);
          OOperationBuilder (VRef 0) (VStr "fn") ].
Proof.
  pose proof (combinators_without_starter new_session 1%nat 0%nat [] eq_refl eq_refl) as H.
  cbv zeta in H. destruct H as (Hor & Hthen & _).
  split; [exact Hor | exact (Hthen (VStr "fn"))].
Defined.

(** ** Starters *)

Lemma setTrigger_spec (h : Heap) (tb : loc) (o : TriggerBuilderObj) (v : jsval) :
  h !! tb = Some (OTriggerBuilder o) →
  TriggerBuilder._setTrigger tb v h =
    Ok v (<[tb := OTriggerBuilder (mkTriggerBuilder (builder o) v)]> h).
Proof.
  intros Htb. unfold TriggerBuilder._setTrigger. unfold_monad. rewrite Htb.
  by rewrite (heap_lookup_insert h tb _ _ Htb).
Qed.

Lemma item_new_spec (h : Heap) (s : string) (g tbv : jsval) :
  ItemTriggerConfig.new (VStr s) g tbv h =
    Ok (VRef (length h))
       (h ++ [OItem (mkItem tbv (if truthy g then "memberOf" else "item")
                            (VStr s) VUndef VUndef VUndef)]).
Proof. reflexivity. Qed.

(** [item(s)] and [memberOf(s)] for a string [s]: the new configuration
    is the last object of the store and the builder's current trigger. *)
Lemma item_starter_spec (h : Heap) (tb : loc) (o : TriggerBuilderObj) (s : string) :
  h !! tb = Some (OTriggerBuilder o) →
  let h' := <[tb := OTriggerBuilder (mkTriggerBuilder (builder o) (VRef (length h)))]> h in
  TriggerBuilder.item tb (VStr s) h
    = Ok (VRef (length h))
        (h' ++ [OItem (mkItem (VRef tb) "item" (VStr s) VUndef VUndef VUndef)]) ∧
  TriggerBuilder.memberOf tb (VStr s) h
    = Ok (VRef (length h))
        (h' ++ [OItem (mkItem (VRef tb) "memberOf" (VStr s) VUndef VUndef VUndef)]).
Proof.
  intros Htb h'. unfold TriggerBuilder.item, TriggerBuilder.memberOf.
  unfold mbind, M_bind. rewrite !item_new_spec. cbn.
  split.
  - erewrite setTrigger_spec by (by apply heap_lookup_old).
    by erewrite heap_insert_old by done.
  - erewrite setTrigger_spec by (by apply heap_lookup_old).
    by erewrite heap_insert_old by done.
Qed.

Lemma item_chain_spec (h h' : Heap) (starter : loc → jsval → M jsval)
    (tb : loc) (tbv : jsval) (ty : string) (g : jsval) (kind : string) :
  length h' = length h →
  starter tb g h = Ok (VRef (length h))
                     (h' ++ [OItem (mkItem tbv ty g VUndef VUndef VUndef)]) →
  item_chain starter (λ c, ItemTriggerConfig.set_op_type c kind) tb g h =
    ItemTriggerConfig._toOHTriggers (length h)
      (h' ++ [OItem (mkItem tbv ty g (VStr kind) VUndef VUndef)]).
Proof.
  intros Hlen Hst. unfold item_chain, ItemTriggerConfig.set_op_type.
  unfold mbind at 1, M_bind. rewrite Hst. rewrite <- Hlen. by exec.
Qed.

(** On any item or group configuration of a recognized kind the
    conversion returns one trigger, of the group family exactly when the
    type is 'memberOf'. *)
Lemma toOHTriggers_family (h : Heap) (l : loc) (o : ItemObj) :
  h !! l = Some (OItem o) → item_op_type o ∈ item_kinds →
  ∃ t, ItemTriggerConfig._toOHTriggers l h = Ok [t] h ∧
       is_group_trigger t = String.eqb (type o) "memberOf".
Proof.
  intros Hl Hk. unfold item_kinds in Hk.
  unfold ItemTriggerConfig._toOHTriggers. unfold_monad. rewrite Hl.
  rewrite !elem_of_cons in Hk.
  destruct Hk as [-> | [-> | [-> | Hk]]]; [| | | by apply elem_of_nil in Hk];
    destruct (String.eqb (type o) "memberOf"); cbn; eauto.
Qed.

(** X20.  The part of C6 that holds.  For every name [g], on a
    group configuration ([memberOf(g)]) [_toOHTriggers()] returns one
    trigger of the group family, on an item configuration ([item(g)]) one
    trigger of the item family, for each of the three operation kinds. *)
Theorem toOHTriggers_group_or_item
    (h : Heap) (tb : loc) (o : TriggerBuilderObj) (g : string) :
  h !! tb = Some (OTriggerBuilder o) →
  returned (item_chain TriggerBuilder.memberOf ItemTriggerConfig.receivedUpdate
              tb (VStr g) h)
    = Some [GroupStateUpdateTrigger (VStr g) VUndef] ∧
  returned (item_chain TriggerBuilder.item ItemTriggerConfig.receivedUpdate
              tb (VStr g) h)
    = Some [ItemStateUpdateTrigger (VStr g) VUndef] ∧
  returned (item_chain TriggerBuilder.memberOf ItemTriggerConfig.receivedCommand
              tb (VStr g) h)
    = Some [GroupCommandTrigger (VStr g) VUndef] ∧
  returned (item_chain TriggerBuilder.item ItemTriggerConfig.receivedCommand
              tb (VStr g) h)
    = Some [ItemCommandTrigger (VStr g) VUndef] ∧
  returned (item_chain TriggerBuilder.memberOf ItemTriggerConfig.changed
              tb (VStr g) h)
    = Some [GroupStateChangeTrigger (VStr g) VUndef VUndef] ∧
  returned (item_chain TriggerBuilder.item ItemTriggerConfig.changed
              tb (VStr g) h)
    = Some [ItemStateChangeTrigger (VStr g) VUndef VUndef].
Proof.
  intros Htb.
  destruct (item_starter_spec h tb o g Htb) as [Hitem Hgroup].
  set (h' := <[tb := _]> h) in *.
  assert (length h' = length h) as Hlen by apply length_insert.
  unfold ItemTriggerConfig.receivedUpdate, ItemTriggerConfig.receivedCommand,
    ItemTriggerConfig.changed.
  repeat (apply conj);
    (erewrite item_chain_spec; [| exact Hlen | first [exact Hitem | exact Hgroup]]);
    rewrite <- Hlen; unfold ItemTriggerConfig._toOHTriggers; by exec.
Qed.

Lemma toOHTriggers_group_or_item_witness :
  returned (item_chain TriggerBuilder.memberOf ItemTriggerConfig.receivedUpdate
              1 (VStr "g") new_session)
    = Some [GroupStateUpdateTrigger (VStr "g") VUndef] ∧
  returned (item_chain TriggerBuilder.item ItemTriggerConfig.receivedUpdate
              1 (VStr "g") new_session)
    = Some [ItemStateUpdateTrigger (VStr "g") VUndef].
Proof.
  pose proof (toOHTriggers_group_or_item new_session 1%nat _ "g" eq_refl) as H.
  split; [exact (proj1 H) | exact (proj1 (proj2 H))].
Defined.

(** ** Two triggers on one builder *)

(** Unfolding of the classes, for the symbolic execution of a chain. *)
Ltac unfold_classes :=
  unfold RuleBuilder.new, RuleBuilder.addTrigger, OperationBuilder.new,
    ConditionBuilder.new,
    TriggerBuilder.new, TriggerBuilder.channel, TriggerBuilder.cron,
    TriggerBuilder.item, TriggerBuilder.memberOf, TriggerBuilder.timeOfDay,
    TriggerBuilder._setTrigger, TriggerBuilder._then, TriggerBuilder._if,
    TriggerBuilder._or,
    TriggerConf.or, TriggerConf.then_, TriggerConf.if_, TriggerConf.triggerBuilder,
    ChannelTriggerConfig.new, ChannelTriggerConfig.triggered,
    CronTriggerConfig.new,
    ItemTriggerConfig.new, ItemTriggerConfig.changed, ItemTriggerConfig.to,
    ItemTriggerConfig.set_op_type, ItemTriggerConfig._toOHTriggers,
    ItemTriggerConfig.describe, ItemTriggerConfig.describe_closure,
    ItemTriggerConfig.describe_method in *.

Ltac exec_chain := repeat (unfold_classes; unfold_monad; cbn; try heap_step).

(** Runs a chain from any store [h]: the store is seen as [h ++ []]. *)
Ltac run_from h :=
  rewrite <- (app_nil_r h) at 1; exec_chain; try reflexivity.

(** C4 as stated fails: after the expression the collection does not
    have two entries. *)
Lemma channel_or_cron_not_two :
  ¬ ∃ confs, registered channel_or_cron [] = Some confs ∧ length confs = 2%nat.
Proof.
  intros (confs & Hreg & Hlen).
  vm_compute in Hreg. injection Hreg as <-. discriminate.
Qed.

(** C4, amended.  After [channel('a').triggered('x').or().cron('0 0 * * * ?')]
    the collection holds the channel configuration alone; the cron
    configuration is the builder's current trigger and the value of the
    expression.  A terminal combinator on it, [or()], [then(fn)] or
    [if(fn)], registers it second: the collection then has the channel
    configuration first and the cron configuration second. *)
Theorem channel_or_cron_registration (h : Heap) :
  let rb := length h in
  let tb := (length h + 1)%nat in
  let c := (length h + 2)%nat in
  let k := (length h + 3)%nat in
  let channel := OChannel (mkChannel (VRef tb) (VStr "a") (VStr "x")) in
  let cron := OCron (mkCron (VRef tb) (VStr "0 0 * * * ?")) in
  let current := OTriggerBuilder (mkTriggerBuilder (VRef rb) (VRef k)) in
  channel_or_cron h
    = Ok (VRef rb, VRef k) (h ++ [ORuleBuilder [VRef c]; current; channel; cron]) ∧
  registered channel_or_cron h = Some [VRef c] ∧
  channel_or_cron_or h
    = Ok (VRef rb, VRef tb)
        (h ++ [ORuleBuilder [VRef c; VRef k]; current; channel; cron]) ∧
  registered channel_or_cron_or h = Some [VRef c; VRef k] ∧
  (∀ fn, registered (channel_or_cron_then fn) h = Some [VRef c; VRef k]) ∧
  (∀ fn, registered (channel_or_cron_if fn) h = Some [VRef c; VRef k]).
Proof.
  intros rb tb c k channel cron current. subst rb tb c k channel cron current.
  assert (channel_or_cron h
          = Ok (VRef (length h), VRef (length h + 3)%nat)
              (h ++ [ORuleBuilder [VRef (length h + 2)%nat];
                     OTriggerBuilder (mkTriggerBuilder (VRef (length h))
                                        (VRef (length h + 3)%nat));
                     OChannel (mkChannel (VRef (length h + 1)%nat) (VStr "a") (VStr "x"));
                     OCron (mkCron (VRef (length h + 1)%nat) (VStr "0 0 * * * ?"))]))
    as Hexpr.
  { unfold channel_or_cron. run_from h. }
  assert (∀ o ext, triggerConfs (h ++ o :: ext) (length h) =
                   match o with ORuleBuilder confs => Some confs | _ => None end)
    as Hconfs.
  { intros o ext. unfold triggerConfs. by rewrite heap_lookup_first. }
  split; [exact Hexpr|]. split; [|split; [|split; [|split]]].
  - unfold registered. rewrite Hexpr. by rewrite Hconfs.
  - unfold channel_or_cron_or. unfold mbind at 1, M_bind. rewrite Hexpr.
    by exec_chain.
  - unfold registered, channel_or_cron_or. unfold mbind at 1, M_bind. rewrite Hexpr.
    exec_chain. by rewrite Hconfs.
  - intros fn.
    unfold registered, channel_or_cron_then. unfold mbind at 1, M_bind. rewrite Hexpr.
    exec_chain. by rewrite Hconfs.
  - intros fn.
    unfold registered, channel_or_cron_if. unfold mbind at 1, M_bind. rewrite Hexpr.
    exec_chain. by rewrite Hconfs.
Qed.

(** ** [timeOfDay] *)

(** C1 does not hold of the code.  For every period [p], [timeOfDay(p)]
    builds a configuration named 'vTimeOfDay' with kind 'changed' and
    to-value [p], but of type 'memberOf' and without trigger builder,
    where [item('vTimeOfDay').changed().to(p)] builds one of type 'item'
    that refers to its builder.  The configuration of [timeOfDay]
    converts to a trigger of the group family, and a combinator called on
    it raises a TypeError. *)
Theorem timeOfDay_builds_group_config (h : Heap) (p : jsval) :
  let rb := length h in
  let tb := (length h + 1)%nat in
  let c := (length h + 2)%nat in
  let session := [ORuleBuilder []; OTriggerBuilder (mkTriggerBuilder (VRef rb) (VRef c))] in
  let by_timeOfDay :=
    OItem (mkItem VUndef "memberOf" (VStr "vTimeOfDay") (VStr "changed") p VUndef) in
  let by_item :=
    OItem (mkItem (VRef tb) "item" (VStr "vTimeOfDay") (VStr "changed") p VUndef) in
  timeOfDay_chain p h = Ok (VRef c) (h ++ session ++ [by_timeOfDay]) ∧
  item_changed_to_chain p h = Ok (VRef c) (h ++ session ++ [by_item]) ∧
  returned ((timeOfDay_chain p ≫= λ c, invoke c ItemTriggerConfig._toOHTriggers) h)
    = Some [GroupStateChangeTrigger (VStr "vTimeOfDay") VUndef p] ∧
  returned ((item_changed_to_chain p ≫= λ c, invoke c ItemTriggerConfig._toOHTriggers) h)
    = Some [ItemStateChangeTrigger (VStr "vTimeOfDay") VUndef p] ∧
  (∀ fn, (timeOfDay_chain p ≫= λ c, invoke c (λ c, TriggerConf.then_ c fn)) h
         = Throw (TypeError "Cannot read properties of undefined or null")
             (h ++ session ++ [by_timeOfDay])).
Proof.
  intros rb tb c session by_timeOfDay by_item.
  subst rb tb c session by_timeOfDay by_item.
  assert (timeOfDay_chain p h
          = Ok (VRef (length h + 2)%nat)
              (h ++ [ORuleBuilder [];
                     OTriggerBuilder (mkTriggerBuilder (VRef (length h))
                                        (VRef (length h + 2)%nat))] ++
                    [OItem (mkItem VUndef "memberOf" (VStr "vTimeOfDay")
                              (VStr "changed") p VUndef)])) as Htod.
  { unfold timeOfDay_chain. run_from h. }
  assert (item_changed_to_chain p h
          = Ok (VRef (length h + 2)%nat)
              (h ++ [ORuleBuilder [];
                     OTriggerBuilder (mkTriggerBuilder (VRef (length h))
                                        (VRef (length h + 2)%nat))] ++
                    [OItem (mkItem (VRef (length h + 1)%nat) "item" (VStr "vTimeOfDay")
                              (VStr "changed") p VUndef)])) as Hitem.
  { unfold item_changed_to_chain. run_from h. }
  split; [exact Htod|]. split; [exact Hitem|]. split; [|split].
  - unfold mbind, M_bind. rewrite Htod. by exec_chain.
  - unfold mbind, M_bind. rewrite Hitem. by exec_chain.
  - intros fn. unfold mbind at 1, M_bind. rewrite Htod. by exec_chain.
Qed.

(** ** Descriptions of an item configuration *)

Lemma contains_append (needle a b : string) :
  contains needle b = true → contains needle (a +:+ b) = true.
Proof.
  intros Hb. induction a as [|ch a IH]; [done|].
  change (contains needle (String ch a +:+ b))
    with (String.prefix needle (String ch (a +:+ b)) || contains needle (a +:+ b)).
  rewrite IH. apply orb_true_r.
Qed.

(** The part of C2 that holds: the description of an item or group
    configuration contains the word 'changed' (whatever the kind and the
    argument: the call runs the constructor's arrow function). *)
Lemma describe_says_changed (h : Heap) (l : loc) (o : ItemObj) (compact : jsval) :
  h !! l = Some (OItem o) →
  ∃ s, ItemTriggerConfig.describe l compact h = Ok s h ∧ contains "changed" s = true.
Proof.
  intros Hl. unfold ItemTriggerConfig.describe, ItemTriggerConfig.describe_closure.
  unfold_monad. rewrite Hl. eexists; split; [reflexivity|].
  do 2 apply contains_append. apply contains_append with (a := to_string (item_name o)).
  reflexivity.
Qed.

(** C2 does not hold of the code.  With the kind 'changed' and neither
    from- nor to-value, [describe(true)] returns the verbose sentence of
    the constructor's arrow function, without delta marker; the method of
    the class body, which that own property hides, would return a compact
    form with an arrow. *)
Theorem describe_compact_changed (h : Heap) :
  returned (describe_changed_chain ItemTriggerConfig.describe (VStr "Lamp") (VBool true) h)
    = Some "item Lamp changed" ∧
  contains "Δ" "item Lamp changed" = false ∧
  returned (describe_changed_chain ItemTriggerConfig.describe_method
              (VStr "Lamp") (VBool true) h)
    = Some "Lamp undefined=>/Δ" ∧
  contains "=>" "Lamp undefined=>/Δ" = true.
Proof.
  split; [|split; [|split]].
  - unfold describe_changed_chain. run_from h.
  - reflexivity.
  - unfold describe_changed_chain. run_from h.
  - reflexivity.
Qed.

(** * Further properties of the classes *)

(** ** Channel configurations *)

(** X1.  On a channel configuration [triggered(e)] and [to(e)] store [e]
    when it is truthy and the empty string otherwise, and return the
    receiver; the configuration is then complete, for [undefined] and ''
    too, and converts to the channel-event trigger of that event name. *)
Theorem channel_triggered_completes (h : Heap) (l : loc) (o : ChannelObj) (e : jsval) :
  h !! l = Some (OChannel o) →
  let event := if truthy e then e else VStr "" in
  let h' := <[l := OChannel (mkChannel (channel_triggerBuilder o) (channelName o) event)]> h in
  ChannelTriggerConfig.triggered l e h = Ok (VRef l) h' ∧
  ChannelTriggerConfig.to l e h = Ok (VRef l) h' ∧
  ChannelTriggerConfig._complete l h' = Ok true h' ∧
  ChannelTriggerConfig._toOHTriggers l h'
    = Ok [ChannelEventTrigger (channelName o) event] h'.
Proof.
  intros Hl event h'.
  assert (h' !! l = Some (OChannel (mkChannel (channel_triggerBuilder o)
                                      (channelName o) event))) as Hl'
    by (by eapply heap_lookup_insert).
  assert (ChannelTriggerConfig.triggered l e h = Ok (VRef l) h') as Htrig.
  { unfold ChannelTriggerConfig.triggered. unfold_monad. by rewrite Hl. }
  split; [exact Htrig|]. split; [exact Htrig|]. split.
  - unfold ChannelTriggerConfig._complete. unfold_monad. rewrite Hl'. cbn.
    subst event. destruct e as [| |[]|z|s|r]; cbn; try reflexivity.
    + by destruct (z =? 0)%Z.
    + by destruct (String.eqb s "").
  - unfold ChannelTriggerConfig._toOHTriggers. unfold_monad. by rewrite Hl'.
Qed.

Lemma channel_triggered_completes_witness :
  let h := [OChannel (mkChannel VUndef (VStr "astro:sun:rise") VUndef)] in
  let h' := [OChannel (mkChannel VUndef (VStr "astro:sun:rise") (VStr ""))] in
  ChannelTriggerConfig.triggered 0 VUndef h = Ok (VRef 0) h' ∧
  ChannelTriggerConfig._complete 0 h' = Ok true h'.
Proof.
  intros h h'.
  pose proof (channel_triggered_completes h 0%nat _ VUndef eq_refl) as H.
  cbv zeta in H. split; [exact (proj1 H) | exact (proj1 (proj2 (proj2 H)))].
Defined.

(** ** Conversion and completeness *)

(** X2.  The conversions of a channel and of a system configuration do
    not depend on completeness: right after construction, when
    [_complete()] is false, they return a trigger whose event name, or
    level, is [undefined].  The conversions of a new item and of a new
    thing configuration raise. *)
Theorem conversion_right_after_construction (h : Heap) :
  (∀ n tb, after_construction (ChannelTriggerConfig.new n tb)
             ChannelTriggerConfig._toOHTriggers h
           = Ok [ChannelEventTrigger n VUndef] (h ++ [OChannel (mkChannel tb n VUndef)])) ∧
  (∀ tb, after_construction (SystemTriggerConfig.new tb)
           SystemTriggerConfig._toOHTriggers h
         = Ok [SystemStartlevelTrigger VUndef] (h ++ [OSystem (mkSystem tb VUndef)])) ∧
  (∀ s tb, after_construction (CronTriggerConfig.new s tb)
             CronTriggerConfig._toOHTriggers h
           = Ok [GenericCronTrigger s] (h ++ [OCron (mkCron tb s)])) ∧
  (∀ (s : string) g tb,
      raises (after_construction (ItemTriggerConfig.new (VStr s) g tb)
                ItemTriggerConfig._toOHTriggers h) = true) ∧
  (∀ u tb,
      raises (after_construction (ThingTriggerConfig.new u tb)
                ThingTriggerConfig._toOHTriggers h) = true).
Proof.
  split; [|split; [|split; [|split]]]; intros.
  - unfold ChannelTriggerConfig.new, ChannelTriggerConfig._toOHTriggers, alloc.
    by exec.
  - unfold SystemTriggerConfig.new, SystemTriggerConfig._toOHTriggers, alloc.
    by exec.
  - unfold CronTriggerConfig.new, CronTriggerConfig._toOHTriggers, alloc.
    by exec.
  - unfold ItemTriggerConfig.new, ItemTriggerConfig._toOHTriggers, alloc.
    exec. by destruct (truthy g).
  - unfold ThingTriggerConfig.new, ThingTriggerConfig._toOHTriggers, alloc.
    by exec.
Qed.

(** Case analysis of an observer: on the object at the receiver, then on
    every test of its body. *)
Ltac observer_cases h l :=
  unfold_monad; destruct (h !! l) as [[]|]; cbn; try reflexivity;
  repeat (match goal with
          | |- context [if ?b then _ else _] => destruct b; cbn
          | |- context [truthy ?v] => destruct (truthy v); cbn
          end);
  try reflexivity.

(** X3.  [_complete()], [describe(compact)], [_toOHTriggers()] and
    [_executeHook()] never modify the store, on any receiver and whether
    they return or raise. *)
Theorem observers_keep_store (h : Heap) (l : loc) (compact : jsval) :
  store_after (ChannelTriggerConfig._complete l h) = h ∧
  store_after (ChannelTriggerConfig.describe l compact h) = h ∧
  store_after (ChannelTriggerConfig._toOHTriggers l h) = h ∧
  store_after (CronTriggerConfig._complete l h) = h ∧
  store_after (CronTriggerConfig.describe l compact h) = h ∧
  store_after (CronTriggerConfig._toOHTriggers l h) = h ∧
  store_after (ItemTriggerConfig._complete l h) = h ∧
  store_after (ItemTriggerConfig.describe l compact h) = h ∧
  store_after (ItemTriggerConfig.describe_method l compact h) = h ∧
  store_after (ItemTriggerConfig._toOHTriggers l h) = h ∧
  store_after (ItemTriggerConfig._executeHook l h) = h ∧
  store_after (ThingTriggerConfig._complete l h) = h ∧
  store_after (ThingTriggerConfig.describe l compact h) = h ∧
  store_after (ThingTriggerConfig._toOHTriggers l h) = h ∧
  store_after (SystemTriggerConfig._complete l h) = h ∧
  store_after (SystemTriggerConfig.describe l compact h) = h ∧
  store_after (SystemTriggerConfig._toOHTriggers l h) = h.
Proof.
  repeat (apply conj).
  - unfold ChannelTriggerConfig._complete. observer_cases h l.
  - unfold ChannelTriggerConfig.describe. observer_cases h l.
  - unfold ChannelTriggerConfig._toOHTriggers. observer_cases h l.
  - unfold CronTriggerConfig._complete. observer_cases h l.
  - unfold CronTriggerConfig.describe. observer_cases h l.
  - unfold CronTriggerConfig._toOHTriggers. observer_cases h l.
  - unfold ItemTriggerConfig._complete. observer_cases h l.
  - unfold ItemTriggerConfig.describe, ItemTriggerConfig.describe_closure.
    observer_cases h l.
  - unfold ItemTriggerConfig.describe_method. observer_cases h l.
  - unfold ItemTriggerConfig._toOHTriggers. observer_cases h l.
  - unfold ItemTriggerConfig._executeHook. observer_cases h l.
  - unfold ThingTriggerConfig._complete. observer_cases h l.
  - unfold ThingTriggerConfig.describe. observer_cases h l.
  - unfold ThingTriggerConfig._toOHTriggers. observer_cases h l.
  - unfold SystemTriggerConfig._complete. observer_cases h l.
  - unfold SystemTriggerConfig.describe. observer_cases h l.
  - unfold SystemTriggerConfig._toOHTriggers. observer_cases h l.
Qed.

(** ** Operation kinds, to- and from-values *)

(** Symbolic execution of method calls on the object at [l], from a
    store [h] with [Hl : h !! l = Some _]. *)
Ltac unfold_methods :=
  unfold call_twice, item_call_complete, thing_call_complete, refine_then_convert,
    call,
    ChannelTriggerConfig.to, ChannelTriggerConfig.triggered,
    ItemTriggerConfig.of_, ItemTriggerConfig.toOn, ItemTriggerConfig.toOff,
    ItemTriggerConfig.to, ItemTriggerConfig.from,
    ItemTriggerConfig.receivedCommand, ItemTriggerConfig.receivedUpdate,
    ItemTriggerConfig.changed, ItemTriggerConfig.set_op_type,
    ItemTriggerConfig._complete, ItemTriggerConfig._toOHTriggers,
    ThingTriggerConfig.to, ThingTriggerConfig.from, ThingTriggerConfig.changed,
    ThingTriggerConfig.updated, ThingTriggerConfig.set_op_type,
    ThingTriggerConfig._complete, ThingTriggerConfig._toOHTriggers,
    SystemTriggerConfig.rulesLoaded, SystemTriggerConfig.ruleEngineStarted,
    SystemTriggerConfig.userInterfacesStarted, SystemTriggerConfig.thingsInitialized,
    SystemTriggerConfig.startupComplete, SystemTriggerConfig.startLevel,
    SystemTriggerConfig._complete, SystemTriggerConfig._toOHTriggers,
    CronTriggerConfig._toOHTriggers, ChannelTriggerConfig._toOHTriggers,
    ChannelTriggerConfig._complete in *.

Ltac lookup_step Hl :=
  first [ rewrite Hl
        | rewrite (heap_lookup_insert _ _ _ _ Hl)
        | rewrite list_insert_insert_eq ].

Ltac exec_at Hl := repeat (unfold_methods; unfold_monad; cbn; try lookup_step Hl).

(** X4.  The operation kind is the one of the last kind method called:
    a second kind method leaves the store as if it alone had been called,
    and after any kind method [_complete()] is true.  This holds on item
    and group configurations and on thing configurations. *)
Theorem kind_last_call_wins :
  (∀ (h : Heap) (l : loc) (o : ItemObj) (m1 m2 : Method),
      h !! l = Some (OItem o) → m1 ∈ item_kind_methods → m2 ∈ item_kind_methods →
      call_twice m1 m2 l h = call m2 l h ∧
      returned (item_call_complete m2 l h) = Some true) ∧
  (∀ (h : Heap) (l : loc) (o : ThingObj) (m1 m2 : Method),
      h !! l = Some (OThing o) → m1 ∈ thing_kind_methods → m2 ∈ thing_kind_methods →
      call_twice m1 m2 l h = call m2 l h ∧
      returned (thing_call_complete m2 l h) = Some true).
Proof.
  split; intros h l o m1 m2 Hl H1 H2.
  - unfold item_kind_methods in *. rewrite !elem_of_cons in H1, H2.
    destruct H1 as [-> | [-> | [-> | H1]]]; [| | | by apply elem_of_nil in H1];
      destruct H2 as [-> | [-> | [-> | H2]]]; try (by apply elem_of_nil in H2);
      split; by exec_at Hl.
  - unfold thing_kind_methods in *. rewrite !elem_of_cons in H1, H2.
    destruct H1 as [-> | [-> | H1]]; [| | by apply elem_of_nil in H1];
      destruct H2 as [-> | [-> | H2]]; try (by apply elem_of_nil in H2);
      split; by exec_at Hl.
Qed.

Lemma kind_last_call_wins_witness :
  call_twice MChanged MReceivedCommand 0 sample_configs
    = call MReceivedCommand 0 sample_configs ∧
  call_twice MUpdated MChanged 2 sample_configs = call MChanged 2 sample_configs.
Proof.
  destruct kind_last_call_wins as [Hitem Hthing].
  split.
  - refine (proj1 (Hitem sample_configs 0%nat _ MChanged MReceivedCommand eq_refl _ _));
      unfold item_kind_methods; rewrite !elem_of_cons; auto.
  - refine (proj1 (Hthing sample_configs 2%nat _ MUpdated MChanged eq_refl _ _));
      unfold thing_kind_methods; rewrite !elem_of_cons; auto.
Defined.

(** X5.  With the kind 'changed', [from(a)] and [to(b)] commute: in
    either order the store holds both values.  With any other kind the
    order shows: [to(b).from(a)] raises after [to] has stored [b], while
    [from(a).to(b)] raises at once and stores nothing. *)
Theorem to_from_order :
  (∀ (h : Heap) (l : loc) (o : ItemObj) (a b : jsval),
      h !! l = Some (OItem o) →
      let both := OItem (mkItem (item_triggerBuilder o) (type o) (item_name o)
                                (item_op_type o) b a) in
      let only_to := OItem (mkItem (item_triggerBuilder o) (type o) (item_name o)
                                   (item_op_type o) b (item_from_value o)) in
      (item_op_type o = VStr "changed" →
         call_twice (MFrom a) (MTo b) l h = Ok (VRef l) (<[l := both]> h) ∧
         call_twice (MTo b) (MFrom a) l h = Ok (VRef l) (<[l := both]> h)) ∧
      (item_op_type o ≠ VStr "changed" →
         call_twice (MFrom a) (MTo b) l h = Throw from_error h ∧
         call_twice (MTo b) (MFrom a) l h = Throw from_error (<[l := only_to]> h))) ∧
  (∀ (h : Heap) (l : loc) (o : ThingObj) (a b : jsval),
      h !! l = Some (OThing o) →
      let both := OThing (mkThing (thing_triggerBuilder o) (thingUID o)
                                  (thing_op_type o) b a) in
      let only_to := OThing (mkThing (thing_triggerBuilder o) (thingUID o)
                                     (thing_op_type o) b (thing_from_value o)) in
      (thing_op_type o = VStr "changed" →
         call_twice (MFrom a) (MTo b) l h = Ok (VRef l) (<[l := both]> h) ∧
         call_twice (MTo b) (MFrom a) l h = Ok (VRef l) (<[l := both]> h)) ∧
      (thing_op_type o ≠ VStr "changed" →
         call_twice (MFrom a) (MTo b) l h = Throw from_error h ∧
         call_twice (MTo b) (MFrom a) l h = Throw from_error (<[l := only_to]> h))).
Proof.
  split; intros h l o a b Hl both only_to; subst both only_to.
  - split; intros Hk.
    + rewrite Hk. split; exec_at Hl; rewrite Hk; by exec_at Hl.
    + assert (loose_neq_changed (item_op_type o) = true) as Hneq.
      { rewrite loose_neq_changed_spec. by rewrite bool_decide_eq_false_2. }
      split; exec_at Hl; by rewrite Hneq.
  - split; intros Hk.
    + rewrite Hk. split; exec_at Hl; rewrite Hk; by exec_at Hl.
    + assert (loose_neq_changed (thing_op_type o) = true) as Hneq.
      { rewrite loose_neq_changed_spec. by rewrite bool_decide_eq_false_2. }
      split; exec_at Hl; by rewrite Hneq.
Qed.

Lemma to_from_order_witness :
  call_twice (MFrom (VStr "OFF")) (MTo (VStr "ON")) 1 sample_configs
    = call_twice (MTo (VStr "ON")) (MFrom (VStr "OFF")) 1 sample_configs ∧
  call_twice (MFrom (VStr "OFF")) (MTo (VStr "ON")) 0 sample_configs
    = Throw from_error sample_configs ∧
  call_twice (MFrom (VStr "OFFLINE")) (MTo (VStr "ONLINE")) 3 sample_configs
    = call_twice (MTo (VStr "ONLINE")) (MFrom (VStr "OFFLINE")) 3 sample_configs.
Proof.
  destruct to_from_order as [Hitem Hthing].
  split; [|split].
  - destruct (Hitem sample_configs 1%nat _ (VStr "OFF") (VStr "ON") eq_refl) as [Hc _].
    destruct (Hc eq_refl) as [H1 H2]. by rewrite H1, H2.
  - destruct (Hitem sample_configs 0%nat _ (VStr "OFF") (VStr "ON") eq_refl) as [_ Hn].
    apply Hn. discriminate.
  - destruct (Hthing sample_configs 3%nat _ (VStr "OFFLINE") (VStr "ONLINE") eq_refl)
      as [Hc _].
    destruct (Hc eq_refl) as [H1 H2]. by rewrite H1, H2.
Defined.

(** X6.  A kind method does not clear the from-value.  After
    [changed().from(a).receivedCommand()] the store still holds [a]; the
    conversion to a command trigger does not pass it, a further [from]
    raises, and a later [changed()] converts with [a] again. *)
Theorem from_value_survives_kind_switch (h : Heap) (l : loc) (o : ItemObj) (a : jsval) :
  h !! l = Some (OItem o) →
  let n := item_name o in
  let t := item_to_value o in
  let group := String.eqb (type o) "memberOf" in
  call_all [MChanged; MFrom a; MReceivedCommand] (VRef l) h
    = Ok (VRef l)
        (<[l := OItem (mkItem (item_triggerBuilder o) (type o) n
                              (VStr "receivedCommand") t a)]> h) ∧
  returned (refine_then_convert [MChanged; MFrom a; MReceivedCommand]
              ItemTriggerConfig._toOHTriggers l h)
    = Some [if group then GroupCommandTrigger n t else ItemCommandTrigger n t] ∧
  returned (refine_then_convert [MChanged; MFrom a; MReceivedCommand; MChanged]
              ItemTriggerConfig._toOHTriggers l h)
    = Some [if group then GroupStateChangeTrigger n a t
            else ItemStateChangeTrigger n a t] ∧
  (∀ b, raises (call_all [MChanged; MFrom a; MReceivedCommand; MFrom b] (VRef l) h)
        = true).
Proof.
  intros Hl n t group. subst n t group.
  split; [|split; [|split]].
  - by exec_at Hl.
  - exec_at Hl. by destruct (String.eqb (type o) "memberOf").
  - exec_at Hl. by destruct (String.eqb (type o) "memberOf").
  - intros b. by exec_at Hl.
Qed.

Lemma from_value_survives_kind_switch_witness :
  returned (refine_then_convert
              [MChanged; MFrom (VStr "OFF"); MReceivedCommand; MChanged]
              ItemTriggerConfig._toOHTriggers 0 sample_configs)
    = Some [ItemStateChangeTrigger (VStr "Lamp") (VStr "OFF") VUndef].
Proof.
  exact (proj1 (proj2 (proj2
           (from_value_survives_kind_switch sample_configs 0%nat _ (VStr "OFF") eq_refl)))).
Defined.

(** ** Starters *)

(** What a starter does to the store. *)
Lemma start_spec (h : Heap) (tb : loc) (o : TriggerBuilderObj) (st : Starter) :
  h !! tb = Some (OTriggerBuilder o) →
  start st tb h
    = Ok (VRef (length h))
        (<[tb := OTriggerBuilder (mkTriggerBuilder (builder o) (VRef (length h)))]> h
         ++ [started st tb]).
Proof.
  intros Htb.
  destruct st; unfold start;
    repeat (unfold_classes;
            unfold TriggerBuilder.thing, TriggerBuilder.system, ThingTriggerConfig.new,
              SystemTriggerConfig.new, alloc;
            unfold_monad; cbn;
            try first [ rewrite heap_lookup_first
                      | rewrite heap_insert_first
                      | rewrite (heap_lookup_old _ _ _ _ Htb)
                      | rewrite (heap_insert_old _ _ _ _ _ Htb)
                      | rewrite (heap_lookup_old _ _ _ _
                                   (heap_lookup_insert _ _ _ _ Htb)) ]);
    reflexivity.
Qed.

(** X7.  Every starter creates one configuration, enters it as the last
    object of the store, makes it the builder's current trigger and
    returns it; the builder keeps its rule builder, and no collection of
    a rule builder changes: a starter registers nothing. *)
Theorem starter_registers_nothing
    (h : Heap) (tb : loc) (o : TriggerBuilderObj) (st : Starter) :
  h !! tb = Some (OTriggerBuilder o) →
  let c := length h in
  let h' := <[tb := OTriggerBuilder (mkTriggerBuilder (builder o) (VRef c))]> h
            ++ [started st tb] in
  start st tb h = Ok (VRef c) h' ∧
  (∀ rb, triggerConfs h' rb = triggerConfs h rb).
Proof.
  intros Htb c h'. subst c h'. split; [by apply start_spec|].
  intros rb. unfold triggerConfs.
  destruct (decide (rb = tb)) as [->|Hne].
  - rewrite (heap_lookup_old _ _ _ _ (heap_lookup_insert _ _ _ _ Htb)).
    by rewrite Htb.
  - destruct (decide (rb < length h)) as [Hlt|Hge].
    + rewrite lookup_app_l by (by rewrite length_insert).
      by rewrite list_lookup_insert_ne.
    + assert (h !! rb = None) as -> by (apply lookup_ge_None_2; lia).
      set (h' := <[tb := _]> h).
      assert (length h' = length h) as Hlen by apply length_insert.
      destruct (decide (rb = length h)) as [->|Hne'].
      * rewrite <- Hlen, heap_lookup_first. by destruct st.
      * assert ((h' ++ [started st tb]) !! rb = None) as ->; [|done].
        apply lookup_ge_None_2. rewrite length_app, Hlen. cbn. lia.
Qed.

Lemma starter_registers_nothing_witness :
  start (STimeOfDay (VStr "SUNSET")) 1 new_session
    = Ok (VRef 2)
        [ ORuleBuilder []; OTriggerBuilder (mkTriggerBuilder (VRef 0) (VRef 2));
          started (STimeOfDay (VStr "SUNSET")) 1 ] ∧
  start (SCron (VStr "0 0 * * * ?")) 1 new_session
    = Ok (VRef 2)
        [ ORuleBuilder []; OTriggerBuilder (mkTriggerBuilder (VRef 0) (VRef 2));
          OCron (mkCron (VRef 1) (VStr "0 0 * * * ?")) ].
Proof.
  split.
  - exact (proj1 (starter_registers_nothing new_session 1%nat _ (STimeOfDay (VStr "SUNSET")) eq_refl)).
  - exact (proj1 (starter_registers_nothing new_session 1%nat _ (SCron (VStr "0 0 * * * ?")) eq_refl)).
Defined.

(** What a starter leaves, for a builder [tb] of the rule builder [rb]. *)
Lemma start_result (h : Heap) (tb rb : loc) (cur : jsval) (confs : list jsval)
    (st : Starter) :
  h !! tb = Some (OTriggerBuilder (mkTriggerBuilder (VRef rb) cur)) →
  h !! rb = Some (ORuleBuilder confs) →
  ∃ h1, start st tb h = Ok (VRef (length h)) h1 ∧
        length h1 = S (length h) ∧
        h1 !! tb = Some (OTriggerBuilder (mkTriggerBuilder (VRef rb) (VRef (length h)))) ∧
        h1 !! rb = Some (ORuleBuilder confs) ∧
        h1 !! length h = Some (started st tb) ∧
        (∀ l, l < length h → l ≠ tb → h1 !! l = h !! l).
Proof.
  intros Htb Hrb.
  pose proof (start_spec h tb _ st Htb) as Hstart. cbn in Hstart.
  set (h0 := <[tb := _]> h) in Hstart.
  assert (length h0 = length h) as Hlen by apply length_insert.
  assert (rb ≠ tb) as Hne by (intros ->; rewrite Htb in Hrb; discriminate).
  eexists. split; [exact Hstart|]. split; [|split; [|split; [|split]]].
  - rewrite length_app, Hlen. cbn. lia.
  - apply heap_lookup_old. by eapply heap_lookup_insert.
  - apply heap_lookup_old. unfold h0. by rewrite list_lookup_insert_ne.
  - rewrite <- Hlen. apply heap_lookup_first.
  - intros l Hlt Hl. rewrite lookup_app_l by lia.
    unfold h0. by rewrite list_lookup_insert_ne.
Qed.

(** What [_or()] leaves. *)
Lemma or_result (h : Heap) (tb rb : loc) (cur : jsval) (confs : list jsval) :
  h !! tb = Some (OTriggerBuilder (mkTriggerBuilder (VRef rb) cur)) →
  h !! rb = Some (ORuleBuilder confs) →
  ∃ h1, TriggerBuilder._or tb h = Ok (VRef tb) h1 ∧
        length h1 = length h ∧
        h1 !! tb = Some (OTriggerBuilder (mkTriggerBuilder (VRef rb) cur)) ∧
        h1 !! rb = Some (ORuleBuilder (confs ++ [cur])) ∧
        (∀ l, l ≠ rb → h1 !! l = h !! l).
Proof.
  intros Htb Hrb.
  assert (rb ≠ tb) as Hne by (intros ->; rewrite Htb in Hrb; discriminate).
  eexists. split; [by apply or_spec|]. split; [|split; [|split]].
  - apply length_insert.
  - by rewrite list_lookup_insert_ne.
  - by eapply heap_lookup_insert.
  - intros l Hl. by rewrite list_lookup_insert_ne.
Qed.

(** [or()] on a configuration is [_or()] on the builder it refers to. *)
Lemma conf_or_spec (h : Heap) (c tb : loc) (st : Starter) :
  h !! c = Some (started st tb) → is_timeOfDay st = false →
  TriggerConf.or c h = TriggerBuilder._or tb h.
Proof.
  intros Hc Hst. unfold TriggerConf.or, TriggerConf.triggerBuilder.
  unfold mbind at 1, M_bind. rewrite Hc.
  by destruct st.
Qed.

(** X8.  In a chain [s1(...).or().s2(...).or()...] of starters other
    than [timeOfDay], each followed by [or()], every starter's
    configuration is registered once, in the order of the chain, after
    the entries the collection already had; the configurations are the
    new objects of the store and nothing else changes but the builder's
    current trigger. *)
Theorem or_chain_registers_in_order (sts : list Starter) :
  ∀ (h : Heap) (tb rb : loc) (cur : jsval) (confs : list jsval),
    h !! tb = Some (OTriggerBuilder (mkTriggerBuilder (VRef rb) cur)) →
    h !! rb = Some (ORuleBuilder confs) →
    forallb (λ st, negb (is_timeOfDay st)) sts = true →
    ∃ h', or_chain sts (VRef tb) h = Ok (VRef tb) h' ∧
          length h' = (length h + length sts)%nat ∧
          triggerConfs h' rb = Some (confs ++ (VRef <$> seq (length h) (length sts))) ∧
          (∀ i st, sts !! i = Some st → h' !! (length h + i)%nat = Some (started st tb)) ∧
          (∀ l, l < length h → l ≠ tb → l ≠ rb → h' !! l = h !! l).
Proof.
  induction sts as [|st sts IH]; intros h tb rb cur confs Htb Hrb Hsts.
  - exists h. cbn. split; [done|]. split; [lia|]. split.
    + unfold triggerConfs. by rewrite Hrb, app_nil_r.
    + split; [intros i st Hi; by rewrite lookup_nil in Hi | done].
  - cbn in Hsts. apply andb_true_iff in Hsts as [Hst Hsts].
    apply negb_true_iff in Hst.
    assert (tb < length h) as Htblt by (by eapply lookup_lt_Some).
    assert (rb < length h) as Hrblt by (by eapply lookup_lt_Some).
    destruct (start_result h tb rb cur confs st Htb Hrb)
      as (h1 & Hstart & Hlen1 & Htb1 & Hrb1 & Hc1 & Hframe1).
    destruct (or_result h1 tb rb _ confs Htb1 Hrb1)
      as (h2 & Hor & Hlen2 & Htb2 & Hrb2 & Hframe2).
    destruct (IH h2 tb rb _ _ Htb2 Hrb2 Hsts)
      as (h' & Hchain & Hlen' & Hconfs' & Hnew' & Hframe').
    exists h'.
    assert (or_chain (st :: sts) (VRef tb) h = Ok (VRef tb) h') as Hrun.
    { cbn [or_chain invoke]. unfold mbind at 1, M_bind. rewrite Hstart.
      cbn [invoke]. unfold mbind at 1, M_bind.
      rewrite (conf_or_spec h1 (length h) tb st Hc1 Hst), Hor. exact Hchain. }
    split; [exact Hrun|]. split; [|split; [|split]].
    + rewrite Hlen', Hlen2, Hlen1. cbn. lia.
    + rewrite Hconfs', Hlen2, Hlen1. cbn. by rewrite <- app_assoc.
    + intros i st' Hi. destruct i as [|i]; cbn in Hi.
      * injection Hi as <-. rewrite Nat.add_0_r.
        rewrite Hframe' by (rewrite ?Hlen2, ?Hlen1; lia).
        rewrite Hframe2 by lia. exact Hc1.
      * replace (length h + S i)%nat with (length h2 + i)%nat
          by (rewrite Hlen2, Hlen1; lia).
        by apply Hnew'.
    + intros l Hlt Hl1 Hl2.
      rewrite Hframe' by (rewrite ?Hlen2, ?Hlen1; lia).
      rewrite Hframe2 by done. by apply Hframe1.
Qed.

Lemma or_chain_registers_in_order_witness :
  ∃ h', or_chain [SChannel (VStr "a"); SThing (VStr "hue:1"); SSystem] (VRef 1) new_session
          = Ok (VRef 1) h' ∧
        triggerConfs h' 0 = Some [VRef 2; VRef 3; VRef 4].
Proof.
  destruct (or_chain_registers_in_order
              [SChannel (VStr "a"); SThing (VStr "hue:1"); SSystem]
              new_session 1%nat 0%nat VUndef [] eq_refl eq_refl eq_refl)
    as (h' & Hrun & _ & Hconfs & _).
  exists h'. split; [exact Hrun | exact Hconfs].
Defined.

(** [or()] on the configuration of [timeOfDay], which refers to no
    builder. *)
Lemma conf_or_timeOfDay (h : Heap) (c tb : loc) (st : Starter) :
  h !! c = Some (started st tb) → is_timeOfDay st = true →
  TriggerConf.or c h
    = Throw (TypeError "Cannot read properties of undefined or null") h.
Proof.
  intros Hc Hst. unfold TriggerConf.or, TriggerConf.triggerBuilder.
  unfold mbind at 1, M_bind. rewrite Hc.
  by destruct st.
Qed.

(** X9.  A starter called before any combinator replaces the current
    trigger: whatever the two starters, the first configuration is not
    registered by a later [_or()], which registers the second.  [or()]
    called on that first configuration does the same when the first
    starter is not [timeOfDay]: it registers the builder's current
    trigger, which is the second configuration, not the receiver.  When
    the first starter is [timeOfDay], [or()] on its configuration raises
    and nothing is registered. *)
Theorem second_starter_replaces_first
    (h : Heap) (tb rb : loc) (cur : jsval) (confs : list jsval) (st1 st2 : Starter) :
  h !! tb = Some (OTriggerBuilder (mkTriggerBuilder (VRef rb) cur)) →
  h !! rb = Some (ORuleBuilder confs) →
  let first := length h in
  let second := S (length h) in
  (∃ h', start_twice_or st1 st2 tb h = Ok (VRef tb) h' ∧
         triggerConfs h' rb = Some (confs ++ [VRef second]) ∧
         h' !! first = Some (started st1 tb) ∧
         h' !! second = Some (started st2 tb)) ∧
  (is_timeOfDay st1 = false →
     stale_or st1 st2 tb h = start_twice_or st1 st2 tb h) ∧
  (is_timeOfDay st1 = true →
     raises (stale_or st1 st2 tb h) = true ∧
     triggerConfs (store_after (stale_or st1 st2 tb h)) rb = Some confs).
Proof.
  intros Htb Hrb first second. subst first second.
  assert (tb < length h) as Htblt by (by eapply lookup_lt_Some).
  assert (rb < length h) as Hrblt by (by eapply lookup_lt_Some).
  destruct (start_result h tb rb cur confs st1 Htb Hrb)
    as (h1 & Hstart1 & Hlen1 & Htb1 & Hrb1 & Hc1 & Hframe1).
  destruct (start_result h1 tb rb _ confs st2 Htb1 Hrb1)
    as (h2 & Hstart2 & Hlen2 & Htb2 & Hrb2 & Hc2 & Hframe2).
  destruct (or_result h2 tb rb _ confs Htb2 Hrb2)
    as (h3 & Hor & Hlen3 & Htb3 & Hrb3 & Hframe3).
  rewrite Hlen1 in *.
  assert (h2 !! length h = Some (started st1 tb)) as Hc1'.
  { rewrite Hframe2 by lia. exact Hc1. }
  assert (start_twice_or st1 st2 tb h = Ok (VRef tb) h3) as Hrun.
  { unfold start_twice_or. unfold mbind at 1, M_bind. rewrite Hstart1.
    unfold mbind at 1, M_bind. by rewrite Hstart2. }
  assert (stale_or st1 st2 tb h = TriggerConf.or (length h) h2) as Hstale.
  { unfold stale_or. unfold mbind at 1, M_bind. rewrite Hstart1.
    unfold mbind at 1, M_bind. by rewrite Hstart2. }
  split; [|split].
  - exists h3. split; [exact Hrun|]. split; [|split].
    + unfold triggerConfs. by rewrite Hrb3.
    + rewrite Hframe3 by lia. exact Hc1'.
    + rewrite Hframe3 by lia. exact Hc2.
  - intros Hst1. rewrite Hrun, Hstale.
    by rewrite (conf_or_spec h2 (length h) tb st1 Hc1' Hst1).
  - intros Hst1. rewrite Hstale.
    rewrite (conf_or_timeOfDay h2 (length h) tb st1 Hc1' Hst1). cbn.
    split; [reflexivity|]. unfold triggerConfs. by rewrite Hrb2.
Qed.

Lemma second_starter_replaces_first_witness :
  (∃ h', stale_or (SItem "Lamp") (SCron (VStr "0 0 * * * ?")) 1 new_session = Ok (VRef 1) h' ∧
         triggerConfs h' 0 = Some [VRef 3] ∧
         h' !! 3%nat = Some (OCron (mkCron (VRef 1) (VStr "0 0 * * * ?")))) ∧
  raises (stale_or (STimeOfDay (VStr "SUNSET")) (SCron (VStr "0 0 * * * ?")) 1 new_session)
    = true.
Proof.
  split.
  - destruct (second_starter_replaces_first new_session 1%nat 0%nat VUndef []
                (SItem "Lamp") (SCron (VStr "0 0 * * * ?")) eq_refl eq_refl)
      as [(h' & Hrun & Hconfs & _ & Hsecond) [Hstale _]].
    exists h'. rewrite (Hstale eq_refl).
    split; [exact Hrun|]. split; [exact Hconfs | exact Hsecond].
  - destruct (second_starter_replaces_first new_session 1%nat 0%nat VUndef []
                (STimeOfDay (VStr "SUNSET")) (SCron (VStr "0 0 * * * ?")) eq_refl eq_refl)
      as (_ & _ & Hraise).
    exact (proj1 (Hraise eq_refl)).
Defined.

(** ** Whole chains *)

Ltac exec_methods := repeat (unfold_methods; unfold_monad; cbn; try heap_step).

(** Runs a chain that begins with a starter on the builder of [Htb]. *)
Ltac run_started Htb :=
  unfold started_chain; unfold mbind at 1, M_bind;
  rewrite (start_spec _ _ _ _ Htb);
  match goal with
  | |- context [<[?tb := ?x]> ?h ++ _] =>
      let h' := fresh "h'" in
      let Hlen := fresh "Hlen" in
      set (h' := <[tb := x]> h);
      assert (length h' = length h) as Hlen by apply length_insert;
      rewrite <- Hlen
  end;
  exec_methods.

(** X10.  The conversion of a finished chain passes on what the chain
    set.  An item or group change trigger receives the name, the
    from-value and the to-value, in this order; a thing status change
    trigger receives the UID, the to-value and the from-value;
    [of] and [toOn] set the to-value like [to]. *)
Theorem chain_conversion (h : Heap) (tb : loc) (o : TriggerBuilderObj)
    (g : string) (u n a b : jsval) :
  h !! tb = Some (OTriggerBuilder o) →
  returned (started_chain (SItem g) [MChanged; MFrom a; MTo b]
              ItemTriggerConfig._toOHTriggers tb h)
    = Some [ItemStateChangeTrigger (VStr g) a b] ∧
  returned (started_chain (SMemberOf g) [MChanged; MTo b; MFrom a]
              ItemTriggerConfig._toOHTriggers tb h)
    = Some [GroupStateChangeTrigger (VStr g) a b] ∧
  returned (started_chain (SItem g) [MReceivedCommand; MOf a]
              ItemTriggerConfig._toOHTriggers tb h)
    = Some [ItemCommandTrigger (VStr g) a] ∧
  returned (started_chain (SMemberOf g) [MReceivedUpdate; MToOn]
              ItemTriggerConfig._toOHTriggers tb h)
    = Some [GroupStateUpdateTrigger (VStr g) (VStr "ON")] ∧
  returned (started_chain (SItem g) [MToOff; MChanged]
              ItemTriggerConfig._toOHTriggers tb h)
    = Some [ItemStateChangeTrigger (VStr g) VUndef (VStr "OFF")] ∧
  returned (started_chain (SThing u) [MChanged; MFrom a; MTo b]
              ThingTriggerConfig._toOHTriggers tb h)
    = Some [ThingStatusChangeTrigger u b a] ∧
  returned (started_chain (SThing u) [MUpdated; MTo b]
              ThingTriggerConfig._toOHTriggers tb h)
    = Some [ThingStatusUpdateTrigger u b] ∧
  returned (started_chain SSystem [MStartLevel n]
              SystemTriggerConfig._toOHTriggers tb h)
    = Some [SystemStartlevelTrigger n] ∧
  returned (started_chain (SCron n) [] CronTriggerConfig._toOHTriggers tb h)
    = Some [GenericCronTrigger n].
Proof.
  intros Htb.
  repeat (apply conj); run_started Htb; try reflexivity.
Qed.

Lemma chain_conversion_witness :
  returned (started_chain (SThing (VStr "hue:1"))
              [MChanged; MFrom (VStr "OFFLINE"); MTo (VStr "ONLINE")]
              ThingTriggerConfig._toOHTriggers 1 new_session)
    = Some [ThingStatusChangeTrigger (VStr "hue:1") (VStr "ONLINE") (VStr "OFFLINE")].
Proof.
  pose proof (chain_conversion new_session 1%nat _ "Lamp" (VStr "hue:1") VUndef
                (VStr "OFFLINE") (VStr "ONLINE") eq_refl) as H.
  exact (proj1 (proj2 (proj2 (proj2 (proj2 (proj2 H)))))).
Defined.

(** ** Combinators *)

(** [_then(fn)] and [_if(fn)] for any current trigger. *)
Lemma then_if_spec (h : Heap) (tb rb : loc) (cur : jsval) (confs : list jsval) (fn : jsval) :
  h !! tb = Some (OTriggerBuilder (mkTriggerBuilder (VRef rb) cur)) →
  h !! rb = Some (ORuleBuilder confs) →
  let h' := <[rb := ORuleBuilder (confs ++ [cur])]> h in
  TriggerBuilder._then tb fn h
    = Ok (VRef (length h)) (h' ++ [OOperationBuilder (VRef rb) fn]) ∧
  TriggerBuilder._if tb fn h
    = Ok (VRef (length h)) (h' ++ [OConditionBuilder (VRef rb) fn]).
Proof.
  intros Htb Hrb h'.
  pose proof (or_spec h tb rb cur confs Htb Hrb) as Hor.
  assert (h' !! tb = Some (OTriggerBuilder (mkTriggerBuilder (VRef rb) cur))) as Htb'.
  { apply or_keeps_builder; [done|]. unfold triggerConfs. rewrite Hrb. by eexists. }
  assert (length h' = length h) as Hlen by apply length_insert.
  split.
  - unfold TriggerBuilder._then.
    unfold mbind at 1, M_bind. rewrite Hor. fold h'.
    unfold_monad. rewrite Htb'. cbn.
    unfold OperationBuilder.new, alloc. unfold_monad. by rewrite Hlen.
  - unfold TriggerBuilder._if.
    unfold mbind at 1, M_bind. rewrite Hor. fold h'.
    unfold_monad. rewrite Htb'. cbn.
    unfold ConditionBuilder.new, alloc. unfold_monad. by rewrite Hlen.
Qed.

(** X11.  Whatever the current trigger [cur] of the builder, [_or()],
    [_then(fn)] and [_if(fn)] append exactly [cur] to the collection of
    the rule builder; [_then] and [_if] return a new stage object made
    from the rule builder and [fn].  Registration does not empty the
    slot: [_or()] twice in a row registers [cur] twice. *)
Theorem combinators_register_current
    (h : Heap) (tb rb : loc) (cur : jsval) (confs : list jsval) :
  h !! tb = Some (OTriggerBuilder (mkTriggerBuilder (VRef rb) cur)) →
  h !! rb = Some (ORuleBuilder confs) →
  let h' := <[rb := ORuleBuilder (confs ++ [cur])]> h in
  TriggerBuilder._or tb h = Ok (VRef tb) h' ∧
  (∀ fn, TriggerBuilder._then tb fn h
         = Ok (VRef (length h)) (h' ++ [OOperationBuilder (VRef rb) fn])) ∧
  (∀ fn, TriggerBuilder._if tb fn h
         = Ok (VRef (length h)) (h' ++ [OConditionBuilder (VRef rb) fn])) ∧
  or_twice tb h = Ok (VRef tb) (<[rb := ORuleBuilder (confs ++ [cur; cur])]> h).
Proof.
  intros Htb Hrb h'.
  pose proof (or_spec h tb rb cur confs Htb Hrb) as Hor.
  assert (h' !! tb = Some (OTriggerBuilder (mkTriggerBuilder (VRef rb) cur))) as Htb'.
  { apply or_keeps_builder; [done|]. unfold triggerConfs. rewrite Hrb. by eexists. }
  assert (h' !! rb = Some (ORuleBuilder (confs ++ [cur]))) as Hrb'
    by (by eapply heap_lookup_insert).
  split; [exact Hor|]. split; [|split].
  - intros fn. exact (proj1 (then_if_spec h tb rb cur confs fn Htb Hrb)).
  - intros fn. exact (proj2 (then_if_spec h tb rb cur confs fn Htb Hrb)).
  - unfold or_twice. unfold mbind at 1, M_bind. rewrite Hor. fold h'. cbn [invoke].
    rewrite (or_spec h' tb rb cur _ Htb' Hrb'). unfold h'.
    by rewrite list_insert_insert_eq, <- app_assoc.
Qed.

Lemma combinators_register_current_witness :
  let h := [ ORuleBuilder [VRef 7];
             OTriggerBuilder (mkTriggerBuilder (VRef 0) (VRef 2));
             OCron (mkCron (VRef 1) (VStr "0 0 * * * ?")) ] in
  or_twice 1 h
    = Ok (VRef 1)
        [ ORuleBuilder [VRef 7; VRef 2; VRef 2];
          OTriggerBuilder (mkTriggerBuilder (VRef 0) (VRef 2));
          OCron (mkCron (VRef 1) (VStr "0 0 * * * ?")) ].
Proof.
  intros h.
  pose proof (combinators_register_current h 1%nat 0%nat (VRef 2) [VRef 7]
                eq_refl eq_refl) as H.
  cbv zeta in H. exact (proj2 (proj2 (proj2 H))).
Defined.

(** X12.  On a builder made without rule builder ([undefined] or
    [null]) the three combinators raise a TypeError and leave the store
    as it was: no stage object is created. *)
Theorem combinators_without_rule_builder
    (h : Heap) (tb : loc) (b cur : jsval) :
  h !! tb = Some (OTriggerBuilder (mkTriggerBuilder b cur)) →
  b = VUndef ∨ b = VNull →
  let e := TypeError "Cannot read properties of undefined or null" in
  TriggerBuilder._or tb h = Throw e h ∧
  (∀ fn, TriggerBuilder._then tb fn h = Throw e h) ∧
  (∀ fn, TriggerBuilder._if tb fn h = Throw e h).
Proof.
  intros Htb Hb e. subst e.
  assert (TriggerBuilder._or tb h
          = Throw (TypeError "Cannot read properties of undefined or null") h) as Hor.
  { unfold TriggerBuilder._or. unfold_monad. rewrite Htb. by destruct Hb as [-> | ->]. }
  split; [exact Hor|]. split; intros fn.
  - unfold TriggerBuilder._then. unfold mbind at 1, M_bind. by rewrite Hor.
  - unfold TriggerBuilder._if. unfold mbind at 1, M_bind. by rewrite Hor.
Qed.

Lemma combinators_without_rule_builder_witness :
  let h := [OTriggerBuilder (mkTriggerBuilder VUndef VUndef)] in
  TriggerBuilder._then 0 (VStr "fn") h
    = Throw (TypeError "Cannot read properties of undefined or null") h.
Proof.
  intros h.
  pose proof (combinators_without_rule_builder h 0%nat VUndef VUndef eq_refl
                (or_introl eq_refl)) as H.
  cbv zeta in H. exact (proj1 (proj2 H) (VStr "fn")).
Defined.

(** ** The name of an item configuration *)

(** X13.  The item constructor accepts an object in place of a name: an
    object whose [name] is the string [s] gives the same configuration as
    [s] itself.  An object without [name] gives a configuration whose
    name is [undefined], described as 'undefined'.  [undefined] and
    [null] make the constructor raise a TypeError, and nothing is entered
    in the store. *)
Theorem item_name_from_object (h : Heap) (g tbv : jsval) :
  (∀ l props s,
      h !! l = Some (OPlain props) → props !! "name" = Some (VStr s) →
      ItemTriggerConfig.new (VRef l) g tbv h = ItemTriggerConfig.new (VStr s) g tbv h) ∧
  (∀ l props compact,
      h !! l = Some (OPlain props) → props !! "name" = None →
      returned (new_item_describe (VRef l) g tbv compact h)
        = Some ((if truthy g then "memberOf" else "item") +:+ " undefined changed")) ∧
  ItemTriggerConfig.new VUndef g tbv h
    = Throw (TypeError "Cannot read properties of undefined or null") h ∧
  ItemTriggerConfig.new VNull g tbv h
    = Throw (TypeError "Cannot read properties of undefined or null") h.
Proof.
  split; [|split; [|split]].
  - intros l props s Hl Hname.
    unfold ItemTriggerConfig.new, get_name. unfold_monad. cbn.
    by rewrite Hl, Hname.
  - intros l props compact Hl Hname.
    unfold new_item_describe, ItemTriggerConfig.new, ItemTriggerConfig.describe,
      ItemTriggerConfig.describe_closure, get_name, alloc.
    repeat (unfold_monad; cbn;
            try first [rewrite Hl | rewrite Hname | rewrite heap_lookup_first]).
    reflexivity.
  - reflexivity.
  - reflexivity.
Qed.

Lemma item_name_from_object_witness :
  ItemTriggerConfig.new (VRef 0) (VBool false) VUndef named_objects
    = ItemTriggerConfig.new (VStr "Lamp") (VBool false) VUndef named_objects ∧
  returned (new_item_describe (VRef 1) (VBool true) VUndef (VBool true) named_objects)
    = Some "memberOf undefined changed".
Proof.
  destruct (item_name_from_object named_objects (VBool false) VUndef) as [Hnamed _].
  destruct (item_name_from_object named_objects (VBool true) VUndef) as (_ & Hnone & _).
  split.
  - exact (Hnamed 0%nat _ "Lamp" eq_refl eq_refl).
  - exact (Hnone 1%nat _ (VBool true) eq_refl eq_refl).
Defined.

(** ** System levels *)

(** X14.  [startLevel(n)] completes a system configuration unless [n]
    is [undefined], and a second [startLevel] replaces the level of the
    first: calling it with [undefined] makes a complete configuration
    incomplete again. *)
Theorem startLevel_completeness (h : Heap) (l : loc) (o : SystemObj) :
  h !! l = Some (OSystem o) →
  (∀ n, returned (system_call_complete (MStartLevel n) l h)
        = Some (negb (bool_decide (n = VUndef)))) ∧
  (∀ a b, call_twice (MStartLevel a) (MStartLevel b) l h = call (MStartLevel b) l h) ∧
  (∀ m, m ∈ [MRulesLoaded; MRuleEngineStarted; MUserInterfacesStarted;
             MThingsInitialized; MStartupComplete] →
        returned (system_call_complete m l h) = Some true).
Proof.
  intros Hl. split; [|split].
  - intros n. unfold system_call_complete. exec_at Hl. by destruct n.
  - intros a b. by exec_at Hl.
  - intros m Hm. rewrite !elem_of_cons in Hm.
    destruct Hm as [-> | [-> | [-> | [-> | [-> | Hm]]]]];
      [| | | | | by apply elem_of_nil in Hm];
      unfold system_call_complete; by exec_at Hl.
Qed.

Lemma startLevel_completeness_witness :
  let h := [OSystem (mkSystem VUndef (VNum 40))] in
  returned (system_call_complete (MStartLevel VUndef) 0 h) = Some false ∧
  returned (system_call_complete MThingsInitialized 0 h) = Some true.
Proof.
  intros h.
  destruct (startLevel_completeness h 0%nat _ eq_refl) as (Hn & _ & Hnamed).
  split; [exact (Hn VUndef)|].
  apply Hnamed. rewrite !elem_of_cons. auto.
Defined.

(** ** Refinement chains *)

(** One call either raises and leaves the store, or returns the receiver
    and replaces the object there by one of the same identity. *)
Lemma call_step (m : Method) (l : loc) (h : Heap) :
  (∃ e, call m l h = Throw e h) ∨
  (∃ o o', h !! l = Some o ∧ identity_of o' = identity_of o ∧
           call m l h = Ok (VRef l) (<[l := o']> h)).
Proof.
  unfold call.
  destruct (h !! l) as [[]|] eqn:Hl; destruct m;
    try (left; eexists; reflexivity);
    unfold_methods; unfold_monad; rewrite Hl; cbn;
    try (right; eexists _, _; split; [reflexivity|]; split; [|reflexivity]; reflexivity).
  - destruct (loose_neq_changed (item_op_type o)).
    + left. by eexists.
    + right. eexists _, _. split; [reflexivity|]. split; [|reflexivity]. reflexivity.
  - destruct (loose_neq_changed (thing_op_type o)).
    + left. by eexists.
    + right. eexists _, _. split; [reflexivity|]. split; [|reflexivity]. reflexivity.
Qed.

Lemma identity_of_collection (x y : object) :
  identity_of x = identity_of y →
  match x with ORuleBuilder c => Some c | _ => None end
  = match y with ORuleBuilder c => Some c | _ => None end.
Proof. destruct x, y; cbn; intros H; congruence. Qed.

(** The frame of a refinement chain. *)
Lemma call_all_frame (ms : list Method) :
  ∀ (l : loc) (h : Heap),
    let r := call_all ms (VRef l) h in
    length (store_after r) = length h ∧
    (∀ l', l' ≠ l → store_after r !! l' = h !! l') ∧
    identity_of <$> (store_after r !! l) = identity_of <$> (h !! l) ∧
    (∀ v, returned r = Some v → v = VRef l).
Proof.
  induction ms as [|m ms IH]; intros l h r; subst r.
  - cbn. split; [done|]. split; [done|]. split; [done|]. by intros v [= <-].
  - cbn [call_all invoke]. unfold mbind, M_bind.
    destruct (call_step m l h) as [[e ->] | (o & o' & Hl & Hid & ->)].
    + cbn. split; [done|]. split; [done|]. split; [done|]. by intros v [=].
    + destruct (IH l (<[l := o']> h)) as (Hlen & Hother & Hident & Hret).
      cbv zeta in *.
      split; [by rewrite Hlen, length_insert|]. split; [|split].
      * intros l' Hne. rewrite Hother by done. by rewrite list_lookup_insert_ne.
      * rewrite Hident, (heap_lookup_insert h l o o' Hl), Hl. cbn. by rewrite Hid.
      * exact Hret.
Qed.

(** X15.  A chain of refinement calls on a configuration touches only
    that configuration, and only its refinement attributes: the store
    keeps its size, every other object stays as it was, the receiver
    keeps its class, its name or UID, its type and its builder, every
    call that returns returns the receiver, and no collection of a rule
    builder changes.  This holds whether the chain returns or raises part
    way. *)
Theorem refinement_frame (ms : list Method) :
  ∀ (l : loc) (h : Heap),
    let r := call_all ms (VRef l) h in
    length (store_after r) = length h ∧
    (∀ l', l' ≠ l → store_after r !! l' = h !! l') ∧
    identity_of <$> (store_after r !! l) = identity_of <$> (h !! l) ∧
    (∀ v, returned r = Some v → v = VRef l) ∧
    (∀ rb, triggerConfs (store_after r) rb = triggerConfs h rb).
Proof.
  intros l h r.
  destruct (call_all_frame ms l h) as (Hlen & Hother & Hident & Hret).
  fold r in Hlen, Hother, Hident, Hret.
  split; [exact Hlen|]. split; [exact Hother|]. split; [exact Hident|].
  split; [exact Hret|].
  intros rb. unfold triggerConfs.
  destruct (decide (rb = l)) as [->|Hne]; [|by rewrite Hother].
  destruct (store_after r !! l) as [x|], (h !! l) as [y|]; cbn in Hident;
    try discriminate; [|done].
  apply identity_of_collection. congruence.
Qed.

(** ** The middleware of the execution hook *)

(** X16.  The middleware of a 'receivedCommand' configuration removes no
    key of the arguments, and running it on its own output changes
    nothing more. *)
Theorem executeHook_middleware_idempotent (h : Heap) (l : loc) (o : ItemObj) :
  h !! l = Some (OItem o) → item_op_type o = VStr "receivedCommand" →
  ∃ hook : Hook,
    ItemTriggerConfig._executeHook l h = Ok (Some hook) h ∧
    ∀ args : Args,
      forwarded hook (forwarded hook args) = forwarded hook args ∧
      dom args ⊆ dom (forwarded hook args).
Proof.
  intros Hl Hk.
  rewrite (executeHook_spec h l o Hl), Hk, strict_eq_str_true.
  eexists; split; [reflexivity|].
  intros args. unfold forwarded, id, ItemTriggerConfig.getReceivedCommand. split.
  - rewrite lookup_insert_ne by done. by rewrite insert_insert_eq.
  - rewrite dom_insert. set_solver.
Qed.

Lemma executeHook_middleware_idempotent_witness :
  ∃ hook : Hook,
    ItemTriggerConfig._executeHook 0 command_config = Ok (Some hook) command_config ∧
    forwarded hook (forwarded hook args_with_it) = forwarded hook args_with_it.
Proof.
  destruct (executeHook_middleware_idempotent command_config 0%nat _ eq_refl eq_refl)
    as (hook & Hhook & Hargs).
  exists hook. split; [exact Hhook | exact (proj1 (Hargs args_with_it))].
Defined.

Lemma refinement_frame_witness :
  let r := call_all [MChanged; MFrom (VStr "OFF"); MUpdated; MTo (VStr "ON")]
             (VRef 0) sample_configs in
  raises r = true ∧
  store_after r !! 1%nat = sample_configs !! 1%nat ∧
  identity_of <$> (store_after r !! 0%nat) = identity_of <$> (sample_configs !! 0%nat).
Proof.
  intros r.
  destruct (refinement_frame [MChanged; MFrom (VStr "OFF"); MUpdated; MTo (VStr "ON")]
              0%nat sample_configs) as (_ & Hother & Hident & _).
  split; [reflexivity|]. split; [by apply Hother | exact Hident].
Defined.

(** ** Descriptions *)

Lemma strict_eq_str_decide (v : jsval) (s : string) :
  strict_eq_str v s = bool_decide (v = VStr s).
Proof.
  case_bool_decide as Hv.
  - subst v. apply strict_eq_str_true.
  - by apply strict_eq_str_false.
Qed.

(** X17.  [describe] returns on every channel, cron, system and item
    configuration, complete or not.  On a thing configuration it raises
    exactly when the kind is none of 'changed' and 'updated', so a new
    thing configuration cannot be described; with the kind 'changed' its
    result does not depend on [compact].  The method of the item class
    body raises exactly when the kind is none of the three item kinds. *)
Theorem describe_returns_or_raises (h : Heap) (l : loc) (compact : jsval) :
  (∀ o, h !! l = Some (OChannel o) →
        raises (ChannelTriggerConfig.describe l compact h) = false) ∧
  (∀ o, h !! l = Some (OCron o) →
        raises (CronTriggerConfig.describe l compact h) = false) ∧
  (∀ o, h !! l = Some (OSystem o) →
        raises (SystemTriggerConfig.describe l compact h) = false) ∧
  (∀ o, h !! l = Some (OItem o) →
        raises (ItemTriggerConfig.describe l compact h) = false) ∧
  (∀ o, h !! l = Some (OItem o) →
        raises (ItemTriggerConfig.describe_method l compact h)
          = negb (bool_decide (item_op_type o ∈ item_kinds))) ∧
  (∀ o, h !! l = Some (OThing o) →
        raises (ThingTriggerConfig.describe l compact h)
          = negb (bool_decide (thing_op_type o ∈ thing_kinds))) ∧
  (∀ o compact', h !! l = Some (OThing o) → thing_op_type o = VStr "changed" →
        ThingTriggerConfig.describe l compact h
          = ThingTriggerConfig.describe l compact' h).
Proof.
  split; [|split; [|split; [|split; [|split; [|split]]]]].
  - intros o Hl. unfold ChannelTriggerConfig.describe. unfold_monad. rewrite Hl.
    by destruct (truthy compact).
  - intros o Hl. unfold CronTriggerConfig.describe. unfold_monad. by rewrite Hl.
  - intros o Hl. unfold SystemTriggerConfig.describe. unfold_monad. by rewrite Hl.
  - intros o Hl. unfold ItemTriggerConfig.describe, ItemTriggerConfig.describe_closure.
    unfold_monad. by rewrite Hl.
  - intros o Hl. unfold ItemTriggerConfig.describe_method. unfold_monad. rewrite Hl.
    unfold item_kinds. rewrite !strict_eq_str_decide.
    repeat case_bool_decide; try destruct (truthy compact); cbn; try reflexivity;
      exfalso;
      match goal with
      | H : ¬ _ ∈ _ |- _ => apply H; rewrite !elem_of_cons; auto
      | H : _ ∈ _ |- _ =>
          rewrite !elem_of_cons in H;
          destruct H as [? | [? | [? | H]]]; [done | done | done | by apply elem_of_nil in H]
      end.
  - intros o Hl. unfold ThingTriggerConfig.describe. unfold_monad. rewrite Hl.
    unfold thing_kinds. rewrite !strict_eq_str_decide.
    repeat case_bool_decide; try destruct (truthy compact); cbn; try reflexivity;
      exfalso;
      match goal with
      | H : ¬ _ ∈ _ |- _ => apply H; rewrite !elem_of_cons; auto
      | H : _ ∈ _ |- _ =>
          rewrite !elem_of_cons in H;
          destruct H as [? | [? | H]]; [done | done | by apply elem_of_nil in H]
      end.
  - intros o compact' Hl Hk. unfold ThingTriggerConfig.describe. unfold_monad.
    rewrite Hl, Hk. reflexivity.
Qed.

Lemma describe_returns_or_raises_witness :
  raises (ThingTriggerConfig.describe 0 (VBool false) odd_things) = true ∧
  raises (ItemTriggerConfig.describe 0 (VBool false) sample_configs) = false ∧
  ThingTriggerConfig.describe 3 (VBool true) sample_configs
    = ThingTriggerConfig.describe 3 (VBool false) sample_configs.
Proof.
  split; [|split].
  - destruct (describe_returns_or_raises odd_things 0%nat (VBool false))
      as (_ & _ & _ & _ & _ & Hthing & _).
    rewrite (Hthing _ eq_refl). reflexivity.
  - destruct (describe_returns_or_raises sample_configs 0%nat (VBool false))
      as (_ & _ & _ & Hitem & _).
    exact (Hitem _ eq_refl).
  - destruct (describe_returns_or_raises sample_configs 3%nat (VBool true))
      as (_ & _ & _ & _ & _ & _ & Hsame).
    exact (Hsame _ (VBool false) eq_refl eq_refl).
Defined.

Lemma prefix_append (n b : string) : String.prefix n (n +:+ b) = true.
Proof.
  induction n as [|c n IH]; [by destruct b|].
  change (String c n +:+ b) with (String c (n +:+ b)). cbn.
  destruct (ascii_dec c c); [exact IH | done].
Qed.

Lemma contains_unfold (needle hay : string) :
  contains needle hay =
    String.prefix needle hay ||
    match hay with
    | EmptyString => false
    | String _ rest => contains needle rest
    end.
Proof. by destruct hay. Qed.

Lemma contains_prefix (n b : string) : contains n (n +:+ b) = true.
Proof. by rewrite contains_unfold, prefix_append. Qed.

Lemma contains_self (n : string) : contains n n = true.
Proof.
  rewrite contains_unfold.
  assert (String.prefix n n = true) as ->; [|done].
  induction n as [|c n IH]; [done|]. cbn. destruct (ascii_dec c c); [exact IH | done].
Qed.

Ltac contains_tac :=
  repeat first [ reflexivity
               | apply contains_prefix
               | apply contains_self
               | apply contains_append ].

(** X18.  Every description names the configuration: the text that
    [describe] returns contains the channel name, the cron expression,
    the item or group name, or the thing UID, as a string.  The same
    holds of the method of the item class body. *)
Theorem descriptions_mention_identity (h : Heap) (l : loc) (compact : jsval) (s : string) :
  (∀ o, h !! l = Some (OChannel o) →
        ChannelTriggerConfig.describe l compact h = Ok s h →
        contains (to_string (channelName o)) s = true) ∧
  (∀ o, h !! l = Some (OCron o) →
        CronTriggerConfig.describe l compact h = Ok s h →
        contains (to_string (timeStr o)) s = true) ∧
  (∀ o, h !! l = Some (OItem o) →
        ItemTriggerConfig.describe l compact h = Ok s h →
        contains (to_string (item_name o)) s = true) ∧
  (∀ o, h !! l = Some (OItem o) →
        ItemTriggerConfig.describe_method l compact h = Ok s h →
        contains (to_string (item_name o)) s = true) ∧
  (∀ o, h !! l = Some (OThing o) →
        ThingTriggerConfig.describe l compact h = Ok s h →
        contains (to_string (thingUID o)) s = true).
Proof.
  split; [|split; [|split; [|split]]]; intros o Hl.
  - unfold ChannelTriggerConfig.describe. unfold_monad. rewrite Hl.
    destruct (truthy compact); intros [= <-]; contains_tac.
  - unfold CronTriggerConfig.describe. unfold_monad. rewrite Hl.
    destruct (truthy compact); intros [= <-]; contains_tac.
  - unfold ItemTriggerConfig.describe, ItemTriggerConfig.describe_closure.
    unfold_monad. rewrite Hl. intros [= <-]. contains_tac.
  - unfold ItemTriggerConfig.describe_method. unfold_monad. rewrite Hl.
    repeat match goal with
           | |- context [if ?b then _ else _] => destruct b
           end;
      intros [= <-]; contains_tac.
  - unfold ThingTriggerConfig.describe. unfold_monad. rewrite Hl.
    repeat match goal with
           | |- context [if ?b then _ else _] => destruct b
           end;
      intros [= <-]; contains_tac.
Qed.

Lemma descriptions_mention_identity_witness :
  contains "Lights" "memberOf Lights changed" = true ∧
  ItemTriggerConfig.describe 1 (VBool true) sample_configs
    = Ok "memberOf Lights changed" sample_configs.
Proof.
  destruct (descriptions_mention_identity sample_configs 1%nat (VBool true)
              "memberOf Lights changed") as (_ & _ & Hitem & _).
  split; [exact (Hitem _ eq_refl eq_refl) | reflexivity].
Defined.

(** ** A whole declaration *)

(** The builder a configuration refers to is part of its identity. *)
Lemma triggerBuilder_of_identity (h : Heap) (c tb : loc) (x : object) (st : Starter) :
  h !! c = Some x → identity_of x = identity_of (started st tb) →
  is_timeOfDay st = false →
  TriggerConf.triggerBuilder c h = Ok (VRef tb) h.
Proof.
  intros Hc Hid Hst. unfold TriggerConf.triggerBuilder. rewrite Hc.
  destruct st; try discriminate; destruct x; cbn in Hid; try discriminate;
    injection Hid as Hid; by rewrite ?Hid.
Qed.

(** X19.  A declaration [starter(...).m1(...)...mk(...).then(fn)], with a
    starter other than [timeOfDay], registers one entry: the reference to
    the configuration the starter created.  Since the entry is that same
    object, it shows every refinement made after the starter.  The call
    returns a new operation stage (a condition stage for [if(fn)]) made
    from the rule builder and [fn].  When a refinement raises nothing is
    registered. *)
Theorem declaration_registers_refined_config
    (h : Heap) (tb rb : loc) (cur : jsval) (confs : list jsval)
    (st : Starter) (ms : list Method) (fn : jsval) :
  h !! tb = Some (OTriggerBuilder (mkTriggerBuilder (VRef rb) cur)) →
  h !! rb = Some (ORuleBuilder confs) →
  is_timeOfDay st = false →
  let c := length h in
  (∀ h1, call_all ms (VRef c) (store_after (start st tb h)) = Ok (VRef c) h1 →
     let h2 := <[rb := ORuleBuilder (confs ++ [VRef c])]> h1 in
     declare_then st ms fn tb h
       = Ok (VRef (S c)) (h2 ++ [OOperationBuilder (VRef rb) fn]) ∧
     declare_if st ms fn tb h
       = Ok (VRef (S c)) (h2 ++ [OConditionBuilder (VRef rb) fn]) ∧
     h2 !! c = h1 !! c) ∧
  (raises (call_all ms (VRef c) (store_after (start st tb h))) = true →
     raises (declare_then st ms fn tb h) = true ∧
     triggerConfs (store_after (declare_then st ms fn tb h)) rb = Some confs).
Proof.
  intros Htb Hrb Hst c. subst c.
  assert (rb < length h) as Hrblt by (by eapply lookup_lt_Some).
  assert (tb < length h) as Htblt by (by eapply lookup_lt_Some).
  destruct (start_result h tb rb cur confs st Htb Hrb)
    as (h0 & Hstart & Hlen0 & Htb0 & Hrb0 & Hc0 & _).
  rewrite Hstart. cbn [store_after].
  destruct (call_all_frame ms (length h) h0) as (Hlen & Hother & Hident & _).
  cbv zeta in Hlen, Hother, Hident.
  split.
  - intros h1 Hms. rewrite Hms in *. cbn [store_after] in *.
    assert (h1 !! tb = Some (OTriggerBuilder (mkTriggerBuilder (VRef rb) (VRef (length h)))))
      as Htb1 by (rewrite Hother by lia; exact Htb0).
    assert (h1 !! rb = Some (ORuleBuilder confs)) as Hrb1
      by (rewrite Hother by lia; exact Hrb0).
    pose proof (eq_trans Hident (f_equal (fmap identity_of) Hc0)) as Hident'.
    apply fmap_Some in Hident' as (x & Hc1 & Hident').
    pose proof (triggerBuilder_of_identity h1 (length h) tb x st Hc1
                  (eq_sym Hident') Hst) as Hback.
    destruct (then_if_spec h1 tb rb _ confs fn Htb1 Hrb1) as [Hthen Hif].
    cbv zeta in Hthen, Hif. rewrite Hlen, Hlen0 in Hthen, Hif.
    split; [|split].
    + unfold declare_then. unfold mbind at 1, M_bind. rewrite Hstart.
      unfold mbind at 1, M_bind. rewrite Hms. cbn [invoke].
      unfold TriggerConf.then_. unfold mbind at 1, M_bind. rewrite Hback. cbn [invoke].
      apply Hthen.
    + unfold declare_if. unfold mbind at 1, M_bind. rewrite Hstart.
      unfold mbind at 1, M_bind. rewrite Hms. cbn [invoke].
      unfold TriggerConf.if_. unfold mbind at 1, M_bind. rewrite Hback. cbn [invoke].
      apply Hif.
    + by rewrite list_lookup_insert_ne by lia.
  - intros Hraise.
    destruct (call_all ms (VRef (length h)) h0) as [v h1|e h1] eqn:Hms; [discriminate|].
    assert (declare_then st ms fn tb h = Throw e h1) as Hrun.
    { unfold declare_then. unfold mbind at 1, M_bind. rewrite Hstart.
      unfold mbind at 1, M_bind. by rewrite Hms. }
    rewrite Hrun. cbn [store_after raises] in *. split; [reflexivity|].
    unfold triggerConfs. rewrite Hother by lia. by rewrite Hrb0.
Qed.

Lemma declaration_registers_refined_config_witness :
  declare_then (SItem "Lamp") [MChanged; MFrom (VStr "OFF"); MToOn] (VStr "fn") 1 new_session
    = Ok (VRef 3)
        [ ORuleBuilder [VRef 2];
          OTriggerBuilder (mkTriggerBuilder (VRef 0) (VRef 2));
          OItem (mkItem (VRef 1) "item" (VStr "Lamp") (VStr "changed") (VStr "ON") (VStr "OFF"));
          OOperationBuilder (VRef 0) (VStr "fn") ] ∧
  raises (declare_then (SItem "Lamp") [MFrom (VStr "OFF")] (VStr "fn") 1 new_session) = true.
Proof.
  split.
  - destruct (declaration_registers_refined_config new_session 1%nat 0%nat VUndef []
                (SItem "Lamp") [MChanged; MFrom (VStr "OFF"); MToOn] (VStr "fn")
                eq_refl eq_refl eq_refl) as [Hok _].
    cbv zeta in Hok. exact (proj1 (Hok _ eq_refl)).
  - destruct (declaration_registers_refined_config new_session 1%nat 0%nat VUndef []
                (SItem "Lamp") [MFrom (VStr "OFF")] (VStr "fn")
                eq_refl eq_refl eq_refl) as [_ Hraise].
    cbv zeta in Hraise. exact (proj1 (Hraise eq_refl)).
Defined.

(** ** The family of the trigger of a [timeOfDay] configuration *)

(** C6 does not hold of the code.  The configuration that
    [timeOfDay(p)] creates was not created by [memberOf], yet for each of
    the three operation kinds its conversion returns one trigger of the
    group family, for the name 'vTimeOfDay'.  (For configurations created
    by [item] and [memberOf] the family is as claimed.) *)
Theorem timeOfDay_selects_group_family
    (h : Heap) (tb : loc) (o : TriggerBuilderObj) (p : jsval) :
  h !! tb = Some (OTriggerBuilder o) →
  returned (item_chain TriggerBuilder.timeOfDay ItemTriggerConfig.receivedUpdate tb p h)
    = Some [GroupStateUpdateTrigger (VStr "vTimeOfDay") p] ∧
  returned (item_chain TriggerBuilder.timeOfDay ItemTriggerConfig.receivedCommand tb p h)
    = Some [GroupCommandTrigger (VStr "vTimeOfDay") p] ∧
  returned (item_chain TriggerBuilder.timeOfDay ItemTriggerConfig.changed tb p h)
    = Some [GroupStateChangeTrigger (VStr "vTimeOfDay") VUndef p].
Proof.
  intros Htb.
  pose proof (start_spec h tb o (STimeOfDay p) Htb) as Hstart.
  cbn [start started] in Hstart.
  set (h' := <[tb := _]> h) in Hstart.
  assert (length h' = length h) as Hlen by apply length_insert.
  rewrite <- Hlen in Hstart.
  split; [|split]; unfold item_chain; unfold mbind at 1, M_bind; rewrite Hstart;
    by exec_methods.
Qed.

Lemma timeOfDay_selects_group_family_witness :
  returned (item_chain TriggerBuilder.timeOfDay ItemTriggerConfig.receivedUpdate
              1 (VStr "SUNSET") new_session)
    = Some [GroupStateUpdateTrigger (VStr "vTimeOfDay") (VStr "SUNSET")].
Proof.
  exact (proj1 (timeOfDay_selects_group_family new_session 1%nat _ (VStr "SUNSET") eq_refl)).
Defined.
